(** * Interaction body printers: [print_bodies.py] and [print_response_body.py]

    A shallow embedding of the two scripts of [internal/] and the properties
    of their printed output.

    Conventions of the embedding.
    - A Python [str] is a [string]; a character is a code point below 256.
    - A value produced by [yaml.safe_load] is a [yaml]: [None], a bool, an
      int, a str, a list or a dict with str keys.
    - The interpreter state threaded through the scripts is the text written
      to standard output and the log of the files that were opened.
    - A Python exception is a [Raise] result; the state reached when it was
      raised is kept, as text already printed stays printed.
    - The [json] module, the YAML parser and the file system are outside the
      scripts: they are the fields of [JsonLib] and [Host]. *)

From Stdlib Require Import ZArith Lia List Bool Ascii String.
From Stdlib Require Import DecimalString DecimalPos DecimalN DecimalFacts.
From stdpp Require Import base option list strings gmap.
Import ListNotations.

Local Open Scope string_scope.
#[local] Arguments String.append !_ _ / : simpl nomatch.

(** ** Python string methods used by the scripts *)

Module PyStr.

(** [s.startswith(p)] *)
Definition startswith (s p : string) : bool := String.prefix p s.

(** [s[n:]] for [0 <= n]: the characters from index [n] on, nothing when the
    string is shorter. *)
Fixpoint slice_from (n : nat) (s : string) : string :=
  match n, s with
  | O, _ => s
  | S _, EmptyString => EmptyString
  | S n', String _ s' => slice_from n' s'
  end.

(** [s.split(sep)] for a one-character separator: the pieces between the
    occurrences of [sep]; always at least one piece. *)
Fixpoint split (sep : ascii) (s : string) : list string :=
  match s with
  | EmptyString => [EmptyString]
  | String c s' =>
      if Ascii.eqb c sep then EmptyString :: split sep s'
      else match split sep s' with
           | p :: ps => String c p :: ps
           | [] => [String c EmptyString]
           end
  end.

(** [c.isspace()] for a code point below 256: TAB, LF, VT, FF, CR, the
    separators FS, GS, RS, US, the space, NEL and the no-break space. *)
Definition isspace (c : ascii) : bool :=
  let n := nat_of_ascii c in
  (((9 <=? n) && (n <=? 13)) || ((28 <=? n) && (n <=? 32))
   || (n =? 133) || (n =? 160))%nat.

Fixpoint lstrip (s : string) : string :=
  match s with
  | EmptyString => EmptyString
  | String c s' => if isspace c then lstrip s' else s
  end.

Fixpoint rstrip (s : string) : string :=
  match s with
  | EmptyString => EmptyString
  | String c s' =>
      match rstrip s' with
      | EmptyString => if isspace c then EmptyString else String c EmptyString
      | r => String c r
      end
  end.

(** [s.strip()] *)
Definition strip (s : string) : string := rstrip (lstrip s).

(** Truth value of a str: [if s:] *)
Definition nonempty (s : string) : bool :=
  match s with EmptyString => false | _ => true end.

End PyStr.

(** The line feed, the separator of [body.split("\n")]. *)
Definition LF : ascii := ascii_of_nat 10.
Definition nl : string := String LF EmptyString.

(** ** Values loaded from the YAML document *)

#[warnings="-register-all"]
Inductive yaml : Type :=
| YNone
| YBool (b : bool)
| YInt (z : Z)
| YStr (s : string)
| YList (l : list yaml)
| YDict (m : gmap string yaml).

(** Truth value of a loaded value: [if req:] *)
Definition truthy (v : yaml) : bool :=
  match v with
  | YNone => false
  | YBool b => b
  | YInt z => negb (z =? 0)%Z
  | YStr s => PyStr.nonempty s
  | YList l => match l with [] => false | _ => true end
  | YDict m => negb (bool_decide (m = ∅))
  end.

(** ** Exceptions, interpreter state and the monad of the scripts *)

Inductive exn : Type :=
| ValueError        (* json.JSONDecodeError is a ValueError *)
| TypeError
| KeyError
| AttributeError
| IndexError
| OSError           (* open() on a file that cannot be read *)
| YAMLError.

Definition exn_eqb (a b : exn) : bool :=
  match a, b with
  | ValueError, ValueError | TypeError, TypeError | KeyError, KeyError
  | AttributeError, AttributeError | IndexError, IndexError
  | OSError, OSError | YAMLError, YAMLError => true
  | _, _ => false
  end.

Record state : Type := mkState {
  stdout : string;          (* text written to standard output so far *)
  opened : list string      (* paths handed to open(), oldest first *)
}.

Definition initial : state := mkState "" [].

Inductive result (A : Type) : Type :=
| Ok (a : A)
| Raise (e : exn).
Arguments Ok {A} a.
Arguments Raise {A} e.

Definition M (A : Type) : Type := state -> result A * state.

Definition ret {A} (a : A) : M A := fun st => (Ok a, st).

Definition bind {A B} (m : M A) (k : A -> M B) : M B :=
  fun st => match m st with
            | (Ok a, st') => k a st'
            | (Raise e, st') => (Raise e, st')
            end.

Definition raise {A} (e : exn) : M A := fun st => (Raise e, st).

(** [try: m  except e: h]: the handler runs in the state reached when the
    exception was raised; other exceptions propagate. *)
Definition try_except {A} (m : M A) (e : exn) (h : M A) : M A :=
  fun st => match m st with
            | (Raise e', st') => if exn_eqb e e' then h st' else (Raise e', st')
            | r => r
            end.

(** The scripts are written with stdpp's monad notations:
    [x ← m; k] runs [m], binds its value to [x] and goes on with [k];
    [m;; k] drops the value. *)
#[global] Instance M_ret : MRet M := @ret.
#[global] Instance M_bind : MBind M := fun A B k m => bind m k.

(** [print(s)]: the text and a line feed go to standard output. *)
Definition print (s : string) : M unit :=
  fun st => (Ok tt, mkState (stdout st ++ s ++ nl) (opened st)).

(** [for x in l: body x] *)
Fixpoint for_each {A} (l : list A) (body : A -> M unit) : M unit :=
  match l with
  | [] => ret tt
  | x :: l' => body x;; for_each l' body
  end.

(** [v[key]] for a str key. *)
Definition getitem (v : yaml) (key : string) : M yaml :=
  match v with
  | YDict m => match m !! key with
               | Some x => ret x
               | None => raise KeyError
               end
  | _ => raise TypeError
  end.

(** [v.get(key)]: only a dict has the method. *)
Definition get (v : yaml) (key : string) : M yaml :=
  match v with
  | YDict m => match m !! key with
               | Some x => ret x
               | None => ret YNone
               end
  | _ => raise AttributeError
  end.

(** The values a [for] loop draws from [v]: the items of a list, the keys of
    a dict, the characters of a str; other values are not iterable. *)
Definition iterate (v : yaml) : M (list yaml) :=
  match v with
  | YList l => ret l
  | YDict m => ret (YStr <$> (map_to_list m).*1)
  | YStr s => ret ((fun c => YStr (String c EmptyString)) <$> list_ascii_of_string s)
  | _ => raise TypeError
  end.

(** ** What the scripts import: [json], [yaml] and the file system *)

(** The [json] module. [json_loads s] is [None] where [json.loads(s)]
    raises [json.JSONDecodeError]; [json_dumps d] is
    [json.dumps(d, indent=2)]. *)
Class JsonLib : Type := {
  jvalue : Type;
  json_loads : string -> option jvalue;
  json_dumps : jvalue -> string
}.

(** The file system and the YAML parser. [read_file p] is the text of the
    file at [p], [None] where [open(p, "r")] fails; [yaml_parse t] is the
    value of the document [t], [None] where [yaml.safe_load] rejects it. *)
Class Host : Type := {
  read_file : string -> option string;
  yaml_parse : string -> option yaml
}.

Section Imports.
Context `{JsonLib} `{Host}.

(** [json.loads(s)] *)
Definition loads (s : string) : M jvalue :=
  match json_loads s with
  | Some d => ret d
  | None => raise ValueError
  end.

(** [with open(path, "r") as f: data = yaml.safe_load(f)] *)
Definition load_yaml (path : string) : M yaml :=
  fun st =>
    let st' := mkState (stdout st) (opened st ++ [path]) in
    match read_file path with
    | None => (Raise OSError, st')
    | Some text =>
        match yaml_parse text with
        | Some data => (Ok data, st')
        | None => (Raise YAMLError, st')
        end
    end.
End Imports.

(** The escape character of the ANSI sequences, [\033]. *)
Definition ESC : string := String (ascii_of_nat 27) EmptyString.

(** ** [internal/print_bodies.py] *)

Module PrintBodies.
Section Script.
Context `{JsonLib} `{Host}.

(** [def print_line(line)]. [json.loads] raises [TypeError] on a value
    that is not a str, which the [except ValueError] does not catch. *)
Definition print_line (line : yaml) : M unit :=
  match line with
  | YStr s =>
      try_except (d ← loads s; print (json_dumps d))
                 ValueError
                 (print s)
  | _ => raise TypeError
  end.

(** The body of [for line in body.split("\n")]. *)
Definition stream_line (line : string) : M unit :=
  if PyStr.startswith line "event:" then ret tt   (* continue *)
  else
    let line := if PyStr.startswith line "data:"
                then PyStr.slice_from 5 line else line in
    let line := PyStr.strip line in
    if PyStr.nonempty line then print_line (YStr line) else ret tt.

(** The statements of [main] from [body = interaction["response"]["body"]]
    on, once [body] is bound. Only a str has [startswith]. *)
Definition print_body (body : yaml) : M unit :=
  match body with
  | YStr b =>
      if PyStr.startswith b "data:" || PyStr.startswith b "event:" then
        for_each (PyStr.split LF b) stream_line
      else print_line body
  | _ => raise AttributeError
  end.

(** The body of [for interaction in data["interactions"]]. *)
Definition interaction_step (interaction : yaml) : M unit :=
  r ← getitem interaction "request";
  req ← get r "body";
  (if truthy req then
     print (ESC ++ "[1mRequest:" ++ ESC ++ "[0m");;
     print_line req
   else ret tt);;
  print (ESC ++ "[1mResponse:" ++ ESC ++ "[0m");;
  resp ← getitem interaction "response";
  body ← getitem resp "body";
  print_body body.

(** [def main()], with [sys.argv] as its argument. *)
Definition main (argv : list string) : M Z :=
  if (length argv <? 2)%nat then
    print "Usage: print_bodies.py <filename>";;
    ret 1%Z
  else
    match argv !! 1%nat with
    | None => raise IndexError
    | Some path =>
        data ← load_yaml path;
        seq ← getitem data "interactions";
        items ← iterate seq;
        for_each items interaction_step;;
        ret 0%Z
    end.
End Script.
End PrintBodies.

(** ** [internal/print_response_body.py] *)

Module PrintResponseBody.
Section Script.
Context `{JsonLib} `{Host}.

(** The body of [for line in body.split("\n")]. *)
Definition stream_line (line : string) : M unit :=
  let line := if PyStr.startswith line "data:"
              then PyStr.slice_from 5 line else line in
  let line := PyStr.strip line in
  if PyStr.nonempty line then
    try_except (d ← loads line; print (json_dumps d))
               ValueError
               (print line)
  else ret tt.

(** The statements of [main] on [body], once it is bound. *)
Definition print_body (body : yaml) : M unit :=
  match body with
  | YStr b =>
      if PyStr.startswith b "data:" then
        for_each (PyStr.split LF b) stream_line
      else print b
  | _ => raise AttributeError
  end.

(** The body of [for interaction in data["interactions"]]. *)
Definition interaction_step (interaction : yaml) : M unit :=
  resp ← getitem interaction "response";
  body ← getitem resp "body";
  print_body body.

(** [def main()], with [sys.argv] as its argument. *)
Definition main (argv : list string) : M Z :=
  if (length argv <? 2)%nat then
    print "Usage: print_response_body.py <filename>";;
    ret 1%Z
  else
    match argv !! 1%nat with
    | None => raise IndexError
    | Some path =>
        data ← load_yaml path;
        seq ← getitem data "interactions";
        items ← iterate seq;
        for_each items interaction_step;;
        ret 0%Z
    end.
End Script.
End PrintResponseBody.

(** [if __name__ == "__main__": sys.exit(main())], in both scripts: the exit
    status of the process is the value [main] returns; an exception that
    nothing catches ends the interpreter with status 1. *)
Definition exit_status (r : result Z) : Z :=
  match r with
  | Ok z => z
  | Raise _ => 1%Z
  end.

(** ** A reference [json] module

    Python's [json.loads] and [json.dumps(_, indent=2)] on the documents
    made of [null], booleans, integers, strings, arrays and objects. Numbers
    with a fraction or an exponent, [NaN], [Infinity] and [\u] escapes of code
    points from 256 on are outside this instance: [loads] has no value for a
    text that holds one. *)

Module RefJson.

#[warnings="-register-all"]
Inductive json : Type :=
| JNull
| JBool (b : bool)
| JInt (z : Z)
| JStr (s : string)
| JArr (l : list json)
| JObj (l : list (string * json)).   (* a dict, in insertion order *)

(** The double quote and the backslash. *)
Definition DQ : ascii := ascii_of_nat 34.
Definition BS : ascii := ascii_of_nat 92.

(** *** [json.dumps(d, indent=2)] *)

Definition hex_digit (n : nat) : ascii :=
  if (n <? 10)%nat then ascii_of_nat (48 + n) else ascii_of_nat (87 + n).

(** [encode_basestring_ascii]: what one character becomes between the
    quotes. Characters outside the range from the space to the tilde are
    written as escapes. *)
Definition escape_char (c : ascii) : string :=
  let n := nat_of_ascii c in
  if (n =? 34)%nat then String BS (String DQ "")
  else if (n =? 92)%nat then String BS (String BS "")
  else if (n =? 10)%nat then String BS "n"
  else if (n =? 13)%nat then String BS "r"
  else if (n =? 9)%nat then String BS "t"
  else if (n =? 12)%nat then String BS "f"
  else if (n =? 8)%nat then String BS "b"
  else if ((32 <=? n) && (n <=? 126))%nat then String c ""
  else String BS (String "u" (String "0" (String "0"
         (String (hex_digit (n / 16)) (String (hex_digit (n mod 16)) ""))))).

Fixpoint escape (s : string) : string :=
  match s with
  | EmptyString => EmptyString
  | String c s' => escape_char c ++ escape s'
  end.

Definition dump_str (s : string) : string :=
  String DQ (escape s ++ String DQ "").

(** [repr] of an int. *)
Definition dump_int (z : Z) : string :=
  match z with
  | Z0 => "0"
  | Zpos p => NilEmpty.string_of_uint (Pos.to_uint p)
  | Zneg p => String "-" (NilEmpty.string_of_uint (Pos.to_uint p))
  end.

Fixpoint spaces (n : nat) : string :=
  match n with
  | O => EmptyString
  | S n' => String " " (spaces n')
  end.

(** The line break and the indentation of nesting level [lvl]. *)
Definition newline_indent (lvl : nat) : string :=
  String LF (spaces (2 * lvl)).

Fixpoint join_with (sep : string) (l : list string) : string :=
  match l with
  | [] => EmptyString
  | [x] => x
  | x :: l' => x ++ sep ++ join_with sep l'
  end.

(** The encoder at nesting level [lvl]: an empty container is written
    without a line break, the items of another one each on a line of their
    own, one level deeper, separated by commas. *)
Fixpoint dump (lvl : nat) (v : json) : string :=
  match v with
  | JNull => "null"
  | JBool true => "true"
  | JBool false => "false"
  | JInt z => dump_int z
  | JStr s => dump_str s
  | JArr [] => "[]"
  | JArr l =>
      "[" ++ newline_indent (S lvl)
          ++ join_with ("," ++ newline_indent (S lvl)) (map (dump (S lvl)) l)
          ++ newline_indent lvl ++ "]"
  | JObj [] => "{}"
  | JObj l =>
      "{" ++ newline_indent (S lvl)
          ++ join_with ("," ++ newline_indent (S lvl))
               (map (fun kv => dump_str (fst kv) ++ ": " ++ dump (S lvl) (snd kv)) l)
          ++ newline_indent lvl ++ "}"
  end.

Definition dumps (v : json) : string := dump 0 v.

(** *** [json.loads] *)

(** The white space of JSON: space, TAB, LF, CR. *)
Definition is_ws (c : ascii) : bool :=
  let n := nat_of_ascii c in
  ((n =? 32) || (n =? 9) || (n =? 10) || (n =? 13))%nat.

Fixpoint skip_ws (s : string) : string :=
  match s with
  | EmptyString => EmptyString
  | String c s' => if is_ws c then skip_ws s' else s
  end.

Definition is_digit (c : ascii) : bool :=
  let n := nat_of_ascii c in ((48 <=? n) && (n <=? 57))%nat.

(** The value of a hexadecimal digit. *)
Definition hex_value (c : ascii) : option nat :=
  let n := nat_of_ascii c in
  if ((48 <=? n) && (n <=? 57))%nat then Some (n - 48)%nat
  else if ((97 <=? n) && (n <=? 102))%nat then Some (n - 87)%nat
  else if ((65 <=? n) && (n <=? 70))%nat then Some (n - 55)%nat
  else None.

(** The character a one-letter escape stands for. *)
Definition unescape (c : ascii) : option ascii :=
  let n := nat_of_ascii c in
  if (n =? 34)%nat then Some DQ
  else if (n =? 92)%nat then Some BS
  else if (n =? 47)%nat then Some "/"%char
  else if (n =? 98)%nat then Some (ascii_of_nat 8)
  else if (n =? 102)%nat then Some (ascii_of_nat 12)
  else if (n =? 110)%nat then Some (ascii_of_nat 10)
  else if (n =? 114)%nat then Some (ascii_of_nat 13)
  else if (n =? 116)%nat then Some (ascii_of_nat 9)
  else None.

(** [scanstring], after the opening quote: the decoded string and the text
    after the closing quote. A control character inside the quotes, an
    unknown escape or a missing closing quote is an error. *)
Fixpoint scan_string (s : string) : option (string * string) :=
  match s with
  | EmptyString => None
  | String c r =>
      if Ascii.eqb c DQ then Some (EmptyString, r)
      else if Ascii.eqb c BS then
        match r with
        | EmptyString => None
        | String e r1 =>
            if Ascii.eqb e "u" then
              match r1 with
              | String h3 (String h2 (String h1 (String h0 r'))) =>
                  match hex_value h3, hex_value h2, hex_value h1, hex_value h0 with
                  | Some a, Some b, Some d, Some e =>
                      let n := (((a * 16 + b) * 16 + d) * 16 + e)%nat in
                      if (n <? 256)%nat then
                        match scan_string r' with
                        | Some (t, r'') => Some (String (ascii_of_nat n) t, r'')
                        | None => None
                        end
                      else None
                  | _, _, _, _ => None
                  end
              | _ => None
              end
            else
              match unescape e with
              | Some x =>
                  match scan_string r1 with
                  | Some (t, r'') => Some (String x t, r'')
                  | None => None
                  end
              | None => None
              end
        end
      else if (nat_of_ascii c <? 32)%nat then None
      else match scan_string r with
           | Some (t, r') => Some (String c t, r')
           | None => None
           end
  end.

(** The digits at the head of the text, as a decimal numeral. *)
Fixpoint scan_digits (s : string) : Decimal.uint * string :=
  match s with
  | EmptyString => (Decimal.Nil, s)
  | String c r =>
      if is_digit c then
        let '(u, r') := scan_digits r in
        match DecimalString.uint_of_char c (Some u) with
        | Some d => (d, r')
        | None => (Decimal.Nil, s)
        end
      else (Decimal.Nil, s)
  end.

(** A text that goes on with a fraction or an exponent. *)
Definition float_tail (s : string) : bool :=
  match s with
  | String c _ => Ascii.eqb c "." || Ascii.eqb c "e" || Ascii.eqb c "E"
  | EmptyString => false
  end.

(** The magnitude of an integer, [0|[1-9][0-9]*], not followed by a fraction
    or an exponent. *)
Definition scan_nat (s : string) : option (N * string) :=
  match s with
  | String c r =>
      if Ascii.eqb c "0" then
        if float_tail r then None else Some (0%N, r)
      else if is_digit c then
        let '(u, r') := scan_digits s in
        if float_tail r' then None else Some (N.of_uint u, r')
      else None
  | EmptyString => None
  end.

Definition scan_int (s : string) : option (Z * string) :=
  match s with
  | String c r =>
      if Ascii.eqb c "-" then
        match scan_nat r with
        | Some (n, r') => Some ((- Z.of_N n)%Z, r')
        | None => None
        end
      else match scan_nat s with
           | Some (n, r') => Some (Z.of_N n, r')
           | None => None
           end
  | EmptyString => None
  end.

(** [d[k] = v] on a dict kept in insertion order: a key already there keeps
    its place and takes the new value. *)
Fixpoint dict_set (k : string) (v : json) (d : list (string * json))
  : list (string * json) :=
  match d with
  | [] => [(k, v)]
  | (k', v') :: d' =>
      if String.eqb k k' then (k, v) :: d' else (k', v') :: dict_set k v d'
  end.

(** [dict(pairs)] *)
Definition dict_of (pairs : list (string * json)) : list (string * json) :=
  fold_left (fun d kv => dict_set (fst kv) (snd kv) d) pairs [].

(** The scanner. [parse_value] reads one value at the head of the text,
    [parse_elems] the items of an array up to its closing bracket,
    [parse_members] the members of an object up to its closing brace. The
    first argument bounds the number of nested calls. *)
Fixpoint parse_value (n : nat) (s : string) : option (json * string) :=
  match n with
  | O => None
  | S n' =>
      match s with
      | EmptyString => None
      | String c r =>
          if Ascii.eqb c DQ then
            match scan_string r with
            | Some (t, r') => Some (JStr t, r')
            | None => None
            end
          else if Ascii.eqb c "{" then
            match skip_ws r with
            | String c' r' =>
                if Ascii.eqb c' "}" then Some (JObj [], r')
                else match parse_members n' (String c' r') with
                     | Some (kvs, r'') => Some (JObj (dict_of kvs), r'')
                     | None => None
                     end
            | EmptyString => None
            end
          else if Ascii.eqb c "[" then
            match skip_ws r with
            | String c' r' =>
                if Ascii.eqb c' "]" then Some (JArr [], r')
                else match parse_elems n' (String c' r') with
                     | Some (vs, r'') => Some (JArr vs, r'')
                     | None => None
                     end
            | EmptyString => None
            end
          else if String.prefix "null" s then Some (JNull, PyStr.slice_from 4 s)
          else if String.prefix "true" s then Some (JBool true, PyStr.slice_from 4 s)
          else if String.prefix "false" s then Some (JBool false, PyStr.slice_from 5 s)
          else match scan_int s with
               | Some (z, r') => Some (JInt z, r')
               | None => None
               end
      end
  end
with parse_elems (n : nat) (s : string) : option (list json * string) :=
  match n with
  | O => None
  | S n' =>
      match parse_value n' s with
      | Some (v, r) =>
          match skip_ws r with
          | String c r' =>
              if Ascii.eqb c "," then
                match parse_elems n' (skip_ws r') with
                | Some (vs, r'') => Some (v :: vs, r'')
                | None => None
                end
              else if Ascii.eqb c "]" then Some ([v], r')
              else None
          | EmptyString => None
          end
      | None => None
      end
  end
with parse_members (n : nat) (s : string) : option (list (string * json) * string) :=
  match n with
  | O => None
  | S n' =>
      match s with
      | String q r0 =>
          if Ascii.eqb q DQ then
            match scan_string r0 with
            | Some (k, r1) =>
                match skip_ws r1 with
                | String c r2 =>
                    if Ascii.eqb c ":" then
                      match parse_value n' (skip_ws r2) with
                      | Some (v, r3) =>
                          match skip_ws r3 with
                          | String c' r4 =>
                              if Ascii.eqb c' "," then
                                match parse_members n' (skip_ws r4) with
                                | Some (kvs, r5) => Some ((k, v) :: kvs, r5)
                                | None => None
                                end
                              else if Ascii.eqb c' "}" then Some ([(k, v)], r4)
                              else None
                          | EmptyString => None
                          end
                      | None => None
                      end
                    else None
                | EmptyString => None
                end
            | None => None
            end
          else None
      | EmptyString => None
      end
  end.

(** [json.loads(s)]: one value between white space, and nothing else. *)
Definition loads (s : string) : option json :=
  match parse_value (S (String.length s)) (skip_ws s) with
  | Some (v, r) =>
      match skip_ws r with
      | EmptyString => Some v
      | _ => None
      end
  | None => None
  end.

(** *** Measures and invariants of the values *)

(** The number of nested scanner calls that reading a value back takes. *)
Fixpoint size (v : json) : nat :=
  match v with
  | JArr l => S (fold_right (fun x a => S (size x + a)) O l)
  | JObj l => S (fold_right (fun kv a => S (size (snd kv) + a)) O l)
  | _ => 1
  end.

Definition size_elems (l : list json) : nat :=
  fold_right (fun x a => S (size x + a)) O l.

Definition size_members (l : list (string * json)) : nat :=
  fold_right (fun kv a => S (size (snd kv) + a)) O l.

(** A value as [loads] builds it: no dict has a key twice. *)
#[warnings="-register-all"]
Inductive wf : json -> Prop :=
| wf_null : wf JNull
| wf_bool b : wf (JBool b)
| wf_int z : wf (JInt z)
| wf_str s : wf (JStr s)
| wf_arr l : Forall wf l -> wf (JArr l)
| wf_obj l : NoDup (map fst l) -> Forall (fun kv => wf (snd kv)) l -> wf (JObj l).

(** The items of an array and the members of an object as [dump] writes
    them at level [lvl], between the brackets. *)
Definition elems_text (lvl : nat) (l : list json) : string :=
  join_with ("," ++ newline_indent lvl) (map (dump lvl) l).

Definition members_text (lvl : nat) (l : list (string * json)) : string :=
  join_with ("," ++ newline_indent lvl)
    (map (fun kv => dump_str (fst kv) ++ ": " ++ dump lvl (snd kv)) l).

(** The first character of a serialization opens a value: it is neither
    white space nor a closing bracket. *)
Definition opens (c : ascii) : Prop :=
  is_ws c = false /\ Ascii.eqb c "]" = false /\ Ascii.eqb c "}" = false.

(** The text after a value in a serialization: nothing, a comma or a line
    break. *)
Definition delimited (rest : string) : Prop :=
  match rest with
  | EmptyString => True
  | String c _ => c = ","%char \/ c = LF
  end.

End RefJson.

Definition ref_json : JsonLib := {|
  jvalue := RefJson.json;
  json_loads := RefJson.loads;
  json_dumps := RefJson.dumps
|}.

(** ** Vocabulary of the statements *)

(** Every character of [s] is white space. *)
Fixpoint all_space (s : string) : bool :=
  match s with
  | EmptyString => true
  | String c s' => PyStr.isspace c && all_space s'
  end.

(** [c in s] *)
Fixpoint contains (c : ascii) (s : string) : bool :=
  match s with
  | EmptyString => false
  | String d s' => Ascii.eqb d c || contains c s'
  end.

(** The state after [text] has been written to standard output. *)
Definition emit (st : state) (text : string) : state :=
  mkState (stdout st ++ text) (opened st).

(** The last character of a string, if any. *)
Fixpoint last_char (s : string) : option ascii :=
  match s with
  | EmptyString => None
  | String c EmptyString => Some c
  | String _ s' => last_char s'
  end.

(** The two labels, as [print] receives them. *)
Definition request_label : string := ESC ++ "[1mRequest:" ++ ESC ++ "[0m".
Definition response_label : string := ESC ++ "[1mResponse:" ++ ESC ++ "[0m".

(** JSON-parse-or-raw-print, as text: the line printed for a string [s]. *)
Definition line_text `{JsonLib} (s : string) : string :=
  match json_loads s with
  | Some d => json_dumps d ++ nl
  | None => s ++ nl
  end.

(** What is left of a line of an event stream once the [data:] prefix and
    the surrounding white space are removed. *)
Definition payload (line : string) : string :=
  PyStr.strip (if PyStr.startswith line "data:"
               then PyStr.slice_from 5 line else line).

(** The text each script prints for one line of an event stream. *)
Definition stream_text_pb `{JsonLib} (line : string) : string :=
  if PyStr.startswith line "event:" then ""
  else if PyStr.nonempty (payload line) then line_text (payload line) else "".

Definition stream_text_prb `{JsonLib} (line : string) : string :=
  if PyStr.nonempty (payload line) then line_text (payload line) else "".

(** The event-stream prefixes each script tests the body for. *)
Definition is_stream_pb (b : string) : bool :=
  PyStr.startswith b "data:" || PyStr.startswith b "event:".
Definition is_stream_prb (b : string) : bool :=
  PyStr.startswith b "data:".

(** An interaction as the data model has it: a dict with a [request] dict
    and a [response] dict. *)
Definition interaction_of (request response : gmap string yaml) : yaml :=
  YDict (<["request" := YDict request]> (<["response" := YDict response]> ∅)).

(** A file the scripts read to the end: the document is a dict whose
    [interactions] entry is the list [items]. *)
Definition holds_interactions `{Host} (path : string) (items : list yaml) : Prop :=
  exists text top,
    read_file path = Some text /\
    yaml_parse text = Some (YDict top) /\
    top !! "interactions" = Some (YList items).

(** A request body the script accepts: absent, or a value that is false as
    a condition, or a str. *)
Definition request_body_ok (b : option yaml) : Prop :=
  match b with
  | None => True
  | Some (YStr _) => True
  | Some v => truthy v = false
  end.

(** Well-formed interactions: the response is a dict with a str [body];
    for [print_bodies] the request is a dict as well. *)
Definition wf_response (i : yaml) : Prop :=
  exists m r b, i = YDict m /\ m !! "response" = Some (YDict r)
                /\ r !! "body" = Some (YStr b).

Definition wf_interaction (i : yaml) : Prop :=
  wf_response i /\
  exists m rq, i = YDict m /\ m !! "request" = Some (YDict rq)
               /\ request_body_ok (rq !! "body").

(** The laws of a [json] module that the round-trip statements rest on: a
    value that [loads] returned is read back from its own serialization, and
    a line feed after a document does not change its value. *)
Class JsonLaws (J : JsonLib) : Prop := {
  loads_dumps : forall s d, json_loads s = Some d ->
                            json_loads (json_dumps d) = Some d;
  loads_newline : forall s d, json_loads s = Some d ->
                              json_loads (s ++ nl) = Some d
}.

(** A host given by two tables: the text of each file and the value of each
    document. *)
Definition table_host (files : gmap string string) (docs : gmap string yaml) : Host :=
  {| read_file := fun p => files !! p; yaml_parse := fun t => docs !! t |}.

(** A string between double quotes. *)
Definition quoted (s : string) : string :=
  String RefJson.DQ (s ++ String RefJson.DQ "").

(** The body of the two-event example: two [data:] lines, each ended by a
    line feed. *)
Definition two_events : string :=
  "data: {" ++ quoted "a" ++ ":1}" ++ nl ++ "data: {" ++ quoted "b" ++ ":2}" ++ nl.

(** A host with the single file [one.yaml], whose document holds the given
    interactions. *)
Definition one_file (items : list yaml) : Host :=
  table_host {[ "one.yaml" := "text of one.yaml" ]}
             {[ "text of one.yaml" := YDict {[ "interactions" := YList items ]} ]}.

(** A computation that does not look at the state: it gives the same
    result from every state and only adds the same text to the output. *)
Definition uniform {A} (m : M A) : Prop :=
  exists r text, forall st, m st = (r, emit st text).

(** A file that is read and parsed: its document is [doc]. *)
Definition holds_document `{Host} (path : string) (doc : yaml) : Prop :=
  exists text, read_file path = Some text /\ yaml_parse text = Some doc.

(** A host given by the document of each file; the text of a file is
    written as its path. *)
Definition docs_host (docs : gmap string yaml) : Host :=
  {| read_file := fun p => match docs !! p with Some _ => Some p | None => None end;
     yaml_parse := fun t => docs !! t |}.

(** The document of a fixture file with the given interactions. *)
Definition fixture (items : list yaml) : yaml :=
  YDict {[ "interactions" := YList items ]}.

(** No character of [p] is white space. *)
Fixpoint no_space (p : string) : bool :=
  match p with
  | EmptyString => true
  | String c p' => negb (PyStr.isspace c) && no_space p'
  end.

(** * Properties *)

(** ** Strings *)

Lemma sapp_assoc (a b c : string) : (a ++ b) ++ c = a ++ (b ++ c).
Proof. induction a; simpl; congruence. Qed.

Lemma sapp_nil_r (a : string) : a ++ "" = a.
Proof. induction a; simpl; congruence. Qed.

(** ** The monad *)

Lemma emit_emit st a b : emit (emit st a) b = emit st (a ++ b).
Proof. unfold emit; simpl. by rewrite sapp_assoc. Qed.

Lemma emit_empty st : emit st "" = st.
Proof. destruct st as [o f]; unfold emit; simpl. by rewrite sapp_nil_r. Qed.

Lemma print_emit s st : print s st = (Ok tt, emit st (s ++ nl)).
Proof. reflexivity. Qed.

Lemma bind_ok {A B} (m : M A) (k : A -> M B) st a st' :
  m st = (Ok a, st') -> (m ≫= k) st = k a st'.
Proof. intros E. unfold mbind, M_bind, bind. by rewrite E. Qed.

Lemma bind_raise {A B} (m : M A) (k : A -> M B) st e st' :
  m st = (Raise e, st') -> (m ≫= k) st = (Raise e, st').
Proof. intros E. unfold mbind, M_bind, bind. by rewrite E. Qed.

Lemma for_each_app {A} (l1 l2 : list A) (body : A -> M unit) st st' :
  for_each l1 body st = (Ok tt, st') ->
  for_each (l1 ++ l2) body st = for_each l2 body st'.
Proof.
  revert st. induction l1 as [|x l1 IH]; simpl; intros st E.
  - by inversion E.
  - unfold mbind, M_bind, bind in *.
    destruct (body x st) as [[[]|e] s1]; [by apply IH | discriminate].
Qed.

Lemma for_each_emit {A} (f : A -> string) (body : A -> M unit) (l : list A) st :
  (forall x s, body x s = (Ok tt, emit s (f x))) ->
  for_each l body st = (Ok tt, emit st (String.concat "" (map f l))).
Proof.
  intros Hb. revert st. induction l as [|x l IH]; intros st.
  - simpl. by rewrite emit_empty.
  - change (for_each (x :: l) body) with (body x ≫= fun _ => for_each l body).
    rewrite (bind_ok _ _ _ _ _ (Hb x st)), IH, emit_emit. do 2 f_equal.
    destruct l as [|y l]; simpl; [by rewrite sapp_nil_r | done].
Qed.

(** ** String methods *)

Lemma startswith_app (p s : string) : PyStr.startswith (p ++ s) p = true.
Proof.
  unfold PyStr.startswith. induction p as [|c p IH]; simpl.
  - by destruct s.
  - destruct (ascii_dec c c); [apply IH | done].
Qed.

Lemma startswith_inv (s p : string) :
  PyStr.startswith s p = true -> exists r, s = p ++ r.
Proof.
  unfold PyStr.startswith. revert s. induction p as [|c p IH]; intros s Hs.
  - by exists s.
  - destruct s as [|d s]; simpl in Hs; [done|].
    destruct (ascii_dec c d) as [->|]; [|done].
    destruct (IH s Hs) as [r ->]. by exists r.
Qed.

Lemma slice_from_app (p s : string) :
  PyStr.slice_from (String.length p) (p ++ s) = s.
Proof. induction p; simpl; [by destruct s | done]. Qed.

Lemma all_space_app (a b : string) :
  all_space (a ++ b) = all_space a && all_space b.
Proof. induction a as [|c a IH]; simpl; [done|]. by rewrite IH, andb_assoc. Qed.

Lemma lstrip_spec (s : string) :
  exists l, s = l ++ PyStr.lstrip s /\ all_space l = true.
Proof.
  induction s as [|c s (l & Hl & Hs)]; simpl.
  - by exists "".
  - destruct (PyStr.isspace c) eqn:Hc.
    + exists (String c l). simpl. rewrite Hc, Hs. by rewrite <- Hl.
    + by exists "".
Qed.

Lemma rstrip_spec (s : string) :
  exists r, s = PyStr.rstrip s ++ r /\ all_space r = true.
Proof.
  induction s as [|c s (r & Hr & Hs)]; simpl.
  - by exists "".
  - destruct (PyStr.rstrip s) as [|d t] eqn:E; simpl in Hr.
    + destruct (PyStr.isspace c) eqn:Hc.
      * exists (String c r). simpl. rewrite Hc, Hs. by subst.
      * exists r. simpl. by subst.
    + exists r. simpl. split; [by f_equal | done].
Qed.

Lemma lstrip_head (s : string) :
  match PyStr.lstrip s with
  | String c _ => PyStr.isspace c = false
  | EmptyString => True
  end.
Proof.
  induction s as [|c s IH]; simpl; [done|].
  destruct (PyStr.isspace c) eqn:Hc; [done | by simpl].
Qed.

Lemma rstrip_last (s : string) :
  match last_char (PyStr.rstrip s) with
  | Some c => PyStr.isspace c = false
  | None => True
  end.
Proof.
  induction s as [|c s IH]; simpl; [done|].
  destruct (PyStr.rstrip s) as [|d t] eqn:E.
  - destruct (PyStr.isspace c) eqn:Hc; simpl; done.
  - simpl in *. done.
Qed.

Lemma rstrip_head (c : ascii) (s : string) :
  PyStr.isspace c = false ->
  exists t, PyStr.rstrip (String c s) = String c t.
Proof.
  intros Hc. simpl. destruct (PyStr.rstrip s); rewrite ?Hc; eauto.
Qed.

(** [strip] removes white space at both ends and nothing else. *)
Lemma strip_spec (s : string) :
  exists l r, s = l ++ PyStr.strip s ++ r
              /\ all_space l = true /\ all_space r = true
              /\ match PyStr.strip s with
                 | String c _ => PyStr.isspace c = false
                 | EmptyString => True
                 end
              /\ match last_char (PyStr.strip s) with
                 | Some c => PyStr.isspace c = false
                 | None => True
                 end.
Proof.
  destruct (lstrip_spec s) as (l & Hl & Hls).
  destruct (rstrip_spec (PyStr.lstrip s)) as (r & Hr & Hrs).
  exists l, r. unfold PyStr.strip. repeat split; try done.
  - by rewrite <- Hr.
  - pose proof (lstrip_head s) as Hh.
    destruct (PyStr.lstrip s) as [|c t]; [done|].
    destruct (rstrip_head c t Hh) as [u ->]. done.
  - apply rstrip_last.
Qed.

(** A string that starts with a character that is not white space keeps
    its first characters up to the last one of them that is not white space. *)
Lemma rstrip_app_keep (a : string) (c : ascii) (s : string) :
  PyStr.isspace c = false ->
  PyStr.rstrip (a ++ String c s) = a ++ PyStr.rstrip (String c s).
Proof.
  intros Hc. induction a as [|x a IH]; [done|].
  destruct (rstrip_head c s Hc) as [t Ht].
  change ((String x a) ++ String c s) with (String x (a ++ String c s)).
  change (PyStr.rstrip (String x (a ++ String c s)))
    with (match PyStr.rstrip (a ++ String c s) with
          | EmptyString => if PyStr.isspace x then EmptyString else String x EmptyString
          | r => String x r
          end).
  rewrite IH, Ht. by destruct a.
Qed.

(** ** The scripts, block by block *)

Section Blocks.
Context `{JsonLib}.

Lemma loads_some s d st : json_loads s = Some d -> loads s st = (Ok d, st).
Proof. unfold loads. by intros ->. Qed.

Lemma loads_none s st : json_loads s = None -> loads s st = (Raise ValueError, st).
Proof. unfold loads. by intros ->. Qed.

(** The [try] statement shared by the two scripts prints one line and
    never raises. *)
Lemma try_print s st :
  try_except (d ← loads s; print (json_dumps d)) ValueError (print s) st
  = (Ok tt, emit st (line_text s)).
Proof.
  unfold try_except, line_text, mbind, M_bind, bind, loads.
  destruct (json_loads s); reflexivity.
Qed.

Lemma pb_print_line s st :
  PrintBodies.print_line (YStr s) st = (Ok tt, emit st (line_text s)).
Proof. apply try_print. Qed.

(** The text one line of an event stream adds to the output. *)
Lemma pb_stream_line line st :
  PrintBodies.stream_line line st = (Ok tt, emit st (stream_text_pb line)).
Proof.
  unfold PrintBodies.stream_line, stream_text_pb, payload.
  destruct (PyStr.startswith line "event:"); [by rewrite emit_empty|].
  cbv zeta.
  destruct (PyStr.nonempty _); [apply pb_print_line | by rewrite emit_empty].
Qed.

Lemma prb_stream_line line st :
  PrintResponseBody.stream_line line st = (Ok tt, emit st (stream_text_prb line)).
Proof.
  unfold PrintResponseBody.stream_line, stream_text_prb, payload. cbv zeta.
  destruct (PyStr.nonempty _); [apply try_print | by rewrite emit_empty].
Qed.

(** An event-stream body is printed line by line. *)
Lemma pb_print_stream b st :
  is_stream_pb b = true ->
  PrintBodies.print_body (YStr b) st
  = (Ok tt, emit st (String.concat "" (map stream_text_pb (PyStr.split LF b)))).
Proof.
  unfold is_stream_pb, PrintBodies.print_body. intros ->.
  apply for_each_emit. intros x s. apply pb_stream_line.
Qed.

Lemma prb_print_stream b st :
  is_stream_prb b = true ->
  PrintResponseBody.print_body (YStr b) st
  = (Ok tt, emit st (String.concat "" (map stream_text_prb (PyStr.split LF b)))).
Proof.
  unfold is_stream_prb, PrintResponseBody.print_body. intros ->.
  apply for_each_emit. intros x s. apply prb_stream_line.
Qed.

(** Printing a str body always succeeds and only adds to the output. *)
Lemma pb_print_body_ok b st :
  exists text, PrintBodies.print_body (YStr b) st = (Ok tt, emit st text).
Proof.
  unfold PrintBodies.print_body.
  destruct (_ || _).
  - eexists. apply for_each_emit. intros x s. apply pb_stream_line.
  - eexists. apply pb_print_line.
Qed.

Lemma prb_print_body_ok b st :
  exists text, PrintResponseBody.print_body (YStr b) st = (Ok tt, emit st text).
Proof.
  unfold PrintResponseBody.print_body.
  destruct (PyStr.startswith b "data:").
  - eexists. apply for_each_emit. intros x s. apply prb_stream_line.
  - eexists. apply print_emit.
Qed.
End Blocks.

(** ** The scripts, from [main] down *)

Section Main.
Context `{JsonLib} `{Host}.

Lemma load_yaml_ok path items st :
  holds_interactions path items ->
  exists top, load_yaml path st
              = (Ok (YDict top), mkState (stdout st) (opened st ++ [path]))
              /\ top !! "interactions" = Some (YList items).
Proof.
  intros (text & top & Hr & Hp & Hi). exists top. split; [|done].
  unfold load_yaml. by rewrite Hr, Hp.
Qed.

(** With a file name on the command line and a document that holds a
    list of interactions, [main] is the loop over them. *)
Lemma pb_main_run prog path rest items st :
  holds_interactions path items ->
  PrintBodies.main (prog :: path :: rest) st
  = (for_each items PrintBodies.interaction_step ≫= fun _ => ret 0%Z)
      (mkState (stdout st) (opened st ++ [path])).
Proof.
  intros Hf. destruct (load_yaml_ok path items st Hf) as (top & Hl & Hi).
  unfold PrintBodies.main. simpl.
  rewrite (bind_ok _ _ _ _ _ Hl). simpl.
  unfold mbind at 1, M_bind at 1, bind at 1. simpl. rewrite Hi. reflexivity.
Qed.

Lemma prb_main_run prog path rest items st :
  holds_interactions path items ->
  PrintResponseBody.main (prog :: path :: rest) st
  = (for_each items PrintResponseBody.interaction_step ≫= fun _ => ret 0%Z)
      (mkState (stdout st) (opened st ++ [path])).
Proof.
  intros Hf. destruct (load_yaml_ok path items st Hf) as (top & Hl & Hi).
  unfold PrintResponseBody.main. simpl.
  rewrite (bind_ok _ _ _ _ _ Hl). simpl.
  unfold mbind at 1, M_bind at 1, bind at 1. simpl. rewrite Hi. reflexivity.
Qed.

(** A loop that ends without an exception makes [main] return 0. *)
Lemma pb_main_ok prog path rest items st' :
  holds_interactions path items ->
  for_each items PrintBodies.interaction_step (mkState "" [path]) = (Ok tt, st') ->
  PrintBodies.main (prog :: path :: rest) initial = (Ok 0%Z, st').
Proof.
  intros Hf Hl. rewrite (pb_main_run prog path rest items initial Hf).
  change (mkState (stdout initial) (opened initial ++ [path])) with (mkState "" [path]).
  by rewrite (bind_ok _ _ _ _ _ Hl).
Qed.

Lemma prb_main_ok prog path rest items st' :
  holds_interactions path items ->
  for_each items PrintResponseBody.interaction_step (mkState "" [path]) = (Ok tt, st') ->
  PrintResponseBody.main (prog :: path :: rest) initial = (Ok 0%Z, st').
Proof.
  intros Hf Hl. rewrite (prb_main_run prog path rest items initial Hf).
  change (mkState (stdout initial) (opened initial ++ [path])) with (mkState "" [path]).
  by rewrite (bind_ok _ _ _ _ _ Hl).
Qed.

Lemma for_each_one {A} (x : A) (body : A -> M unit) st st' :
  body x st = (Ok tt, st') -> for_each [x] body st = (Ok tt, st').
Proof. intros Hb. simpl. by rewrite (bind_ok _ _ _ _ _ Hb). Qed.

(** One turn of the loop of [print_bodies] on an interaction that has a
    request dict: the request part, then the label and the response. *)
Lemma pb_step m rq st :
  m !! "request" = Some (YDict rq) ->
  PrintBodies.interaction_step (YDict m) st
  = ((let req := match rq !! "body" with Some x => x | None => YNone end in
      if truthy req then
        print request_label;; PrintBodies.print_line req
      else ret tt);;
     print response_label;;
     resp ← getitem (YDict m) "response";
     body ← getitem resp "body";
     PrintBodies.print_body body) st.
Proof.
  intros Hrq. unfold PrintBodies.interaction_step.
  unfold mbind at 1, M_bind at 1, bind at 1. simpl. rewrite Hrq. simpl.
  unfold mbind at 1, M_bind at 1, bind at 1. simpl.
  by destruct (rq !! "body").
Qed.

Lemma pb_step_response m r body st :
  m !! "response" = Some (YDict r) ->
  r !! "body" = Some body ->
  (print response_label;;
   resp ← getitem (YDict m) "response";
   body ← getitem resp "body";
   PrintBodies.print_body body) st
  = PrintBodies.print_body body (emit st (response_label ++ nl)).
Proof.
  intros Hr Hb. unfold mbind, M_bind, bind. simpl. rewrite Hr. simpl. by rewrite Hb.
Qed.

Lemma prb_step m r body st :
  m !! "response" = Some (YDict r) ->
  r !! "body" = Some body ->
  PrintResponseBody.interaction_step (YDict m) st
  = PrintResponseBody.print_body body st.
Proof.
  intros Hr Hb. unfold PrintResponseBody.interaction_step.
  unfold mbind, M_bind, bind. simpl. rewrite Hr. simpl. by rewrite Hb.
Qed.

(** A well-formed interaction is printed without an exception. *)
Lemma pb_step_ok i st :
  wf_interaction i ->
  exists text, PrintBodies.interaction_step i st = (Ok tt, emit st text).
Proof.
  intros [(m & r & b & -> & Hr & Hb) (m' & rq & [= <-] & Hrq & Hok)].
  rewrite (pb_step m rq st Hrq).
  assert (exists t, (let req := match rq !! "body" with Some x => x | None => YNone end in
                     if truthy req then
                       print request_label;; PrintBodies.print_line req
                     else ret tt) st = (Ok tt, emit st t)) as [t Ht].
  { unfold request_body_ok in Hok.
    destruct (rq !! "body") as [v|];
      [|exists ""; by rewrite emit_empty].
    cbv zeta. destruct v as [|?|?|s|?|?]; try rewrite Hok;
      try (exists ""; by rewrite emit_empty).
    cbn [truthy]. destruct (PyStr.nonempty s);
      [|exists ""; by rewrite emit_empty].
    exists ((request_label ++ nl) ++ line_text s).
    rewrite (bind_ok _ _ _ _ _ (print_emit request_label st)).
    by rewrite pb_print_line, emit_emit. }
  rewrite (bind_ok _ _ _ _ _ Ht).
  rewrite (pb_step_response m r (YStr b) _ Hr Hb).
  destruct (pb_print_body_ok b (emit (emit st t) (response_label ++ nl))) as [u Hu].
  rewrite Hu, !emit_emit. eauto.
Qed.

Lemma prb_step_ok i st :
  wf_response i ->
  exists text, PrintResponseBody.interaction_step i st = (Ok tt, emit st text).
Proof.
  intros (m & r & b & -> & Hr & Hb).
  rewrite (prb_step m r (YStr b) st Hr Hb). apply prb_print_body_ok.
Qed.

Lemma for_each_ok {A} (P : A -> Prop) (body : A -> M unit) (l : list A) st :
  (forall x s, P x -> exists text, body x s = (Ok tt, emit s text)) ->
  Forall P l ->
  exists text, for_each l body st = (Ok tt, emit st text).
Proof.
  intros Hb Hl. revert st. induction Hl as [|x l Hx Hl IH]; intros st.
  - exists "". simpl. by rewrite emit_empty.
  - destruct (Hb x st Hx) as [t Ht]. destruct (IH (emit st t)) as [u Hu].
    exists (t ++ u). simpl. rewrite (bind_ok _ _ _ _ _ Ht), Hu.
    by rewrite emit_emit.
Qed.
End Main.

(** ** The reference [json] module satisfies the laws *)

Module RefJsonFacts.
Import RefJson.

Lemma skip_ws_stop c r : is_ws c = false -> skip_ws (String c r) = String c r.
Proof. intros Hc. simpl. by rewrite Hc. Qed.

Lemma skip_ws_spaces k s : skip_ws (spaces k ++ s) = skip_ws s.
Proof. induction k; simpl; done. Qed.

Lemma skip_ws_newline_indent lvl s : skip_ws (newline_indent lvl ++ s) = skip_ws s.
Proof. unfold newline_indent. simpl. apply skip_ws_spaces. Qed.

(** Reading back one escaped character. *)
Lemma scan_escape_char c tail :
  scan_string (escape_char c ++ tail)
  = match scan_string tail with
    | Some (t, r) => Some (String c t, r)
    | None => None
    end.
Proof.
  destruct c as [[] [] [] [] [] [] [] []]; reflexivity.
Qed.

Lemma scan_escape s rest :
  scan_string (escape s ++ String DQ rest) = Some (s, rest).
Proof.
  induction s as [|c s IH]; [reflexivity|].
  simpl. rewrite sapp_assoc, scan_escape_char, IH. done.
Qed.

Lemma scan_dump_str s rest :
  exists t, dump_str s ++ rest = String DQ t /\ scan_string t = Some (s, rest).
Proof.
  exists (escape s ++ String DQ rest). split; [|apply scan_escape].
  unfold dump_str. simpl. f_equal. by rewrite sapp_assoc.
Qed.

Lemma delimited_not_digit rest :
  delimited rest ->
  match rest with String c _ => is_digit c = false | EmptyString => True end.
Proof. destruct rest as [|c r]; [done|]. by intros [-> | ->]. Qed.

Lemma delimited_not_float rest : delimited rest -> float_tail rest = false.
Proof. destruct rest as [|c r]; [done|]. by intros [-> | ->]. Qed.

Lemma scan_digits_stop rest :
  match rest with String c _ => is_digit c = false | EmptyString => True end ->
  scan_digits rest = (Decimal.Nil, rest).
Proof. destruct rest as [|c r]; [done|]. simpl. by intros ->. Qed.

Lemma scan_digits_uint u rest :
  match rest with String c _ => is_digit c = false | EmptyString => True end ->
  scan_digits (NilEmpty.string_of_uint u ++ rest) = (u, rest).
Proof.
  intros Hr.
  induction u as [|u IH|u IH|u IH|u IH|u IH|u IH|u IH|u IH|u IH|u IH];
    [by apply scan_digits_stop|..];
    cbn [NilEmpty.string_of_uint String.append scan_digits];
    rewrite IH; reflexivity.
Qed.

Lemma to_uint_no_leading_zero p d : Pos.to_uint p <> Decimal.D0 d.
Proof.
  intros E.
  pose proof (DecimalPos.Unsigned.to_of (Pos.to_uint p)) as Hn.
  rewrite DecimalPos.Unsigned.of_to in Hn. simpl in Hn. rewrite E in Hn.
  unfold Decimal.unorm in Hn. simpl in Hn.
  destruct (Decimal.nzhead d) eqn:Hz;
    try (pose proof (nb_digits_nzhead d) as Hle; rewrite Hz, <- Hn in Hle;
         simpl in Hle; lia).
  apply (DecimalPos.Unsigned.to_uint_nonzero p). by rewrite E, Hn.
Qed.

Lemma scan_nat_pos p rest :
  delimited rest ->
  scan_nat (NilEmpty.string_of_uint (Pos.to_uint p) ++ rest) = Some (Npos p, rest).
Proof.
  intros Hr.
  pose proof (scan_digits_uint (Pos.to_uint p) rest (delimited_not_digit _ Hr)) as Hs.
  pose proof (to_uint_no_leading_zero p) as Hz.
  pose proof (DecimalPos.Unsigned.to_uint_nonnil p) as Hn.
  pose proof (DecimalPos.Unsigned.of_to p) as Hv.
  destruct (Pos.to_uint p) as [|u|u|u|u|u|u|u|u|u|u]; [done|by destruct (Hz u)|..];
    cbn [NilEmpty.string_of_uint String.append] in *;
    unfold scan_nat; cbn [Ascii.eqb Bool.eqb is_digit nat_of_ascii]; simpl Ascii.eqb;
    rewrite Hs, (delimited_not_float _ Hr); unfold N.of_uint; by rewrite Hv.
Qed.

Lemma scan_dump_int z rest :
  delimited rest -> scan_int (dump_int z ++ rest) = Some (z, rest).
Proof.
  intros Hr. destruct z as [|p|p]; unfold dump_int.
  - simpl. by rewrite (delimited_not_float _ Hr).
  - pose proof (scan_nat_pos p rest Hr) as Hs.
    pose proof (to_uint_no_leading_zero p) as Hz.
    pose proof (DecimalPos.Unsigned.to_uint_nonnil p) as Hn.
    destruct (Pos.to_uint p) as [|u|u|u|u|u|u|u|u|u|u]; [done|by destruct (Hz u)|..];
      cbn [NilEmpty.string_of_uint String.append] in *;
      unfold scan_int; simpl Ascii.eqb; cbv iota; by rewrite Hs.
  - cbn [String.append]. unfold scan_int. simpl Ascii.eqb. cbv iota.
    by rewrite (scan_nat_pos p rest Hr).
Qed.

(** *** Dicts *)

Lemma dict_set_keys k v d :
  map fst (dict_set k v d)
  = if bool_decide (k ∈ map fst d) then map fst d else (map fst d ++ [k])%list.
Proof.
  induction d as [|[k' v'] d IH]; [done|].
  cbn [dict_set]. destruct (String.eqb_spec k k') as [->|Hne].
  - cbn [map fst]. rewrite bool_decide_eq_true_2; [done | left].
  - cbn [map fst]. rewrite IH. case_bool_decide as Hin.
    + rewrite bool_decide_eq_true_2; [done | by right].
    + rewrite bool_decide_eq_false_2; [done|].
      intros [?|?]%elem_of_cons; done.
Qed.

Lemma dict_set_fresh k v d :
  k ∉ map fst d -> dict_set k v d = (d ++ [(k, v)])%list.
Proof.
  induction d as [|[k' v'] d IH]; [done|].
  cbn [map fst]. intros Hn. cbn [dict_set].
  destruct (String.eqb_spec k k') as [->|Hne].
  - destruct Hn. left.
  - rewrite IH; [done|]. intros ?. apply Hn. by right.
Qed.

Lemma dict_set_nodup k v d : NoDup (map fst d) -> NoDup (map fst (dict_set k v d)).
Proof.
  intros Hd. rewrite dict_set_keys. case_bool_decide; [done|].
  apply NoDup_app. split_and!; [done | | apply NoDup_singleton].
  intros x Hx ->%list_elem_of_singleton. done.
Qed.

Lemma dict_set_forall (P : string * json -> Prop) k v d :
  P (k, v) -> Forall P d -> Forall P (dict_set k v d).
Proof.
  intros Hkv Hd. induction Hd as [|[k' v'] d Hx Hd IH]; cbn [dict_set].
  - by constructor.
  - destruct (String.eqb k k'); by constructor.
Qed.

Lemma dict_fold_fresh acc pairs :
  NoDup (map fst (acc ++ pairs)%list) ->
  fold_left (fun d kv => dict_set (fst kv) (snd kv) d) pairs acc = (acc ++ pairs)%list.
Proof.
  revert acc. induction pairs as [|[k v] pairs IH]; intros acc Hnd.
  - by rewrite app_nil_r.
  - cbn [fold_left fst snd]. rewrite dict_set_fresh.
    + rewrite IH; rewrite <- app_assoc; done.
    + rewrite map_app in Hnd. apply NoDup_app in Hnd as (_ & Hd & _).
      intros Hk. apply (Hd k Hk). left.
Qed.

Lemma dict_of_nodup pairs : NoDup (map fst pairs) -> dict_of pairs = pairs.
Proof. intros Hnd. unfold dict_of. by rewrite dict_fold_fresh. Qed.

Lemma dict_fold_wf (P : string * json -> Prop) acc pairs :
  NoDup (map fst acc) -> Forall P acc -> Forall P pairs ->
  let d := fold_left (fun d kv => dict_set (fst kv) (snd kv) d) pairs acc in
  NoDup (map fst d) /\ Forall P d.
Proof.
  revert acc. induction pairs as [|[k v] pairs IH]; intros acc Hnd Ha Hp; [done|].
  inversion Hp; subst. cbn [fold_left fst snd]. apply IH; [|by apply dict_set_forall|done].
  by apply dict_set_nodup.
Qed.

(** *** Reading back a serialization *)

Lemma dump_head lvl v : exists c t, dump lvl v = String c t /\ opens c.
Proof.
  destruct v as [|[]|z|s|[|x l]|[|x l]]; try (by eexists _, _).
  destruct z as [|p|p]; try (by eexists _, _).
  unfold dump, dump_int.
  pose proof (DecimalPos.Unsigned.to_uint_nonnil p) as Hn.
  destruct (Pos.to_uint p); try done; by eexists _, _.
Qed.

Lemma skip_ws_dump lvl v rest : skip_ws (dump lvl v ++ rest) = dump lvl v ++ rest.
Proof.
  destruct (dump_head lvl v) as (c & t & -> & Hc & _).
  cbn [String.append]. by apply skip_ws_stop.
Qed.

Lemma elems_text_cons lvl v w l :
  elems_text lvl (v :: w :: l)
  = dump lvl v ++ String "," (newline_indent lvl ++ elems_text lvl (w :: l)).
Proof. reflexivity. Qed.

Lemma members_text_cons lvl k v w l :
  members_text lvl ((k, v) :: w :: l)
  = dump_str k ++ String ":" (String " " (dump lvl v
      ++ String "," (newline_indent lvl ++ members_text lvl (w :: l)))).
Proof.
  unfold members_text. cbn [map join_with fst snd].
  rewrite !sapp_assoc. reflexivity.
Qed.

Lemma dump_arr lvl v l :
  dump lvl (JArr (v :: l))
  = String "[" (newline_indent (S lvl) ++ elems_text (S lvl) (v :: l)
                ++ newline_indent lvl ++ "]").
Proof. reflexivity. Qed.

Lemma dump_obj lvl kv l :
  dump lvl (JObj (kv :: l))
  = String "{" (newline_indent (S lvl) ++ members_text (S lvl) (kv :: l)
                ++ newline_indent lvl ++ "}").
Proof. reflexivity. Qed.

Lemma parse_elems_S n s :
  parse_elems (S n) s
  = match parse_value n s with
    | Some (v, r) =>
        match skip_ws r with
        | String c r' =>
            if Ascii.eqb c "," then
              match parse_elems n (skip_ws r') with
              | Some (vs, r'') => Some (v :: vs, r'')
              | None => None
              end
            else if Ascii.eqb c "]" then Some ([v], r')
            else None
        | EmptyString => None
        end
    | None => None
    end.
Proof. reflexivity. Qed.

Lemma parse_members_S n s :
  parse_members (S n) s
  = match s with
    | String q r0 =>
        if Ascii.eqb q DQ then
          match scan_string r0 with
          | Some (k, r1) =>
              match skip_ws r1 with
              | String c r2 =>
                  if Ascii.eqb c ":" then
                    match parse_value n (skip_ws r2) with
                    | Some (v, r3) =>
                        match skip_ws r3 with
                        | String c' r4 =>
                            if Ascii.eqb c' "," then
                              match parse_members n (skip_ws r4) with
                              | Some (kvs, r5) => Some ((k, v) :: kvs, r5)
                              | None => None
                              end
                            else if Ascii.eqb c' "}" then Some ([(k, v)], r4)
                            else None
                        | EmptyString => None
                        end
                    | None => None
                    end
                  else None
              | EmptyString => None
              end
          | None => None
          end
        else None
    | EmptyString => None
    end.
Proof. reflexivity. Qed.

Lemma parse_value_S n c r :
  parse_value (S n) (String c r)
  = if Ascii.eqb c DQ then
      match scan_string r with
      | Some (t, r') => Some (JStr t, r')
      | None => None
      end
    else if Ascii.eqb c "{" then
      match skip_ws r with
      | String c' r' =>
          if Ascii.eqb c' "}" then Some (JObj [], r')
          else match parse_members n (String c' r') with
               | Some (kvs, r'') => Some (JObj (dict_of kvs), r'')
               | None => None
               end
      | EmptyString => None
      end
    else if Ascii.eqb c "[" then
      match skip_ws r with
      | String c' r' =>
          if Ascii.eqb c' "]" then Some (JArr [], r')
          else match parse_elems n (String c' r') with
               | Some (vs, r'') => Some (JArr vs, r'')
               | None => None
               end
      | EmptyString => None
      end
    else if String.prefix "null" (String c r) then
      Some (JNull, PyStr.slice_from 4 (String c r))
    else if String.prefix "true" (String c r) then
      Some (JBool true, PyStr.slice_from 4 (String c r))
    else if String.prefix "false" (String c r) then
      Some (JBool false, PyStr.slice_from 5 (String c r))
    else match scan_int (String c r) with
         | Some (z, r') => Some (JInt z, r')
         | None => None
         end.
Proof. reflexivity. Qed.

Lemma parse_dump_int n z rest :
  delimited rest ->
  parse_value (S n) (dump_int z ++ rest) = Some (JInt z, rest).
Proof.
  intros Hr. pose proof (scan_dump_int z rest Hr) as Hs.
  destruct z as [|p|p]; unfold dump_int in *.
  - cbn [String.append] in *. rewrite parse_value_S. simpl Ascii.eqb. cbv iota.
    simpl String.prefix. cbv iota. by rewrite Hs.
  - pose proof (DecimalPos.Unsigned.to_uint_nonnil p) as Hn.
    destruct (Pos.to_uint p); try done;
      cbn [NilEmpty.string_of_uint String.append] in *;
      rewrite parse_value_S; simpl Ascii.eqb; cbv iota;
      simpl String.prefix; cbv iota; by rewrite Hs.
  - cbn [String.append] in *. rewrite parse_value_S. simpl Ascii.eqb. cbv iota.
    simpl String.prefix. cbv iota. by rewrite Hs.
Qed.

Lemma cons_nonempty {A} (x : A) (l : list A) : x :: l <> [].
Proof. done. Qed.

Lemma size_arr l : size (JArr l) = S (size_elems l).
Proof. reflexivity. Qed.

Lemma size_obj l : size (JObj l) = S (size_members l).
Proof. reflexivity. Qed.

Lemma size_elems_cons x l : size_elems (x :: l) = S (size x + size_elems l).
Proof. reflexivity. Qed.

Lemma size_members_cons k v l :
  size_members ((k, v) :: l) = S (size v + size_members l).
Proof. reflexivity. Qed.

Lemma delimited_comma r : delimited (String "," r).
Proof. by left. Qed.

Lemma delimited_newline lvl r : delimited (newline_indent lvl ++ r).
Proof. by right. Qed.

Lemma wf_arr_inv l : wf (JArr l) -> Forall wf l.
Proof. by inversion 1. Qed.

Lemma wf_obj_inv l :
  wf (JObj l) -> NoDup (map fst l) /\ Forall (fun kv => wf (snd kv)) l.
Proof. by inversion 1. Qed.

(** Enough nested calls read any value back from its serialization,
    whatever follows it. *)
Lemma parse_dump n :
  (forall v lvl rest,
     wf v -> size v <= n -> delimited rest ->
     parse_value n (dump lvl v ++ rest) = Some (v, rest))
  /\ (forall vs k k' rest,
        vs <> [] -> Forall wf vs -> size_elems vs <= n ->
        parse_elems n (elems_text k vs ++ newline_indent k' ++ String "]" rest)
        = Some (vs, rest))
  /\ (forall kvs k k' rest,
        kvs <> [] -> Forall (fun kv => wf (snd kv)) kvs -> size_members kvs <= n ->
        parse_members n (members_text k kvs ++ newline_indent k' ++ String "}" rest)
        = Some (kvs, rest)).
Proof.
  induction n as [|n (IHv & IHe & IHm)].
  { split_and!.
    - intros v ? ? _ Hs. destruct v; simpl in Hs; lia.
    - intros [|v vs] ? ? ? Hne _ Hs; [done | simpl in Hs; lia].
    - intros [|v vs] ? ? ? Hne _ Hs; [done | simpl in Hs; lia]. }
  split_and!.
  - intros v lvl rest Hwf Hsz Hr.
    destruct v as [|[]|z|s|[|x l]|[|x l]].
    + cbn [dump String.append]. rewrite parse_value_S. by destruct rest.
    + cbn [dump String.append]. rewrite parse_value_S. by destruct rest.
    + cbn [dump String.append]. rewrite parse_value_S. by destruct rest.
    + by apply parse_dump_int.
    + destruct (scan_dump_str s rest) as (t & Ht & Hs).
      cbn [dump]. rewrite Ht, parse_value_S. simpl Ascii.eqb. cbv iota.
      by rewrite Hs.
    + cbn [dump String.append]. rewrite parse_value_S. reflexivity.
    + rewrite dump_arr. cbn [String.append]. rewrite parse_value_S.
      simpl Ascii.eqb. cbv iota.
      rewrite !sapp_assoc, skip_ws_newline_indent.
      assert (size_elems (x :: l) <= n) as Hsz' by (rewrite size_arr in Hsz; lia).
      pose proof (IHe (x :: l) (S lvl) lvl rest (cons_nonempty _ _) (wf_arr_inv _ Hwf) Hsz') as He.
      change ("]" ++ rest) with (String "]" rest).
      destruct (dump_head (S lvl) x) as (c & t & Hd & Hws & Hb & _).
      assert (exists u, elems_text (S lvl) (x :: l) ++ newline_indent lvl ++ String "]" rest
                        = String c u) as [u Hu].
      { destruct l; [cbn [elems_text map join_with] | rewrite elems_text_cons];
          rewrite Hd; cbn [String.append]; eauto. }
      rewrite Hu in He |- *. rewrite (skip_ws_stop _ _ Hws), Hb, He. done.
    + cbn [dump String.append]. rewrite parse_value_S. reflexivity.
    + rewrite dump_obj. cbn [String.append]. rewrite parse_value_S.
      simpl Ascii.eqb. cbv iota.
      rewrite !sapp_assoc, skip_ws_newline_indent.
      assert (size_members (x :: l) <= n) as Hsz' by (rewrite size_obj in Hsz; lia).
      destruct (wf_obj_inv _ Hwf) as [Hnd Hall].
      pose proof (IHm (x :: l) (S lvl) lvl rest (cons_nonempty _ _) Hall Hsz') as He.
      change ("}" ++ rest) with (String "}" rest).
      assert (exists u, members_text (S lvl) (x :: l) ++ newline_indent lvl ++ String "}" rest
                        = String DQ u) as [u Hu].
      { destruct x as [k v]. destruct l;
          [cbn [members_text map join_with fst snd] | rewrite members_text_cons];
          unfold dump_str; cbn [String.append]; eauto. }
      rewrite Hu in He |- *. rewrite skip_ws_stop by done.
      simpl Ascii.eqb. cbv iota. rewrite He, (dict_of_nodup _ Hnd). done.
  - intros vs k k' rest Hne Hwf Hsz.
    destruct vs as [|v vs]; [done|]. clear Hne.
    inversion Hwf as [|? ? Hv Hvs]; subst.
    rewrite size_elems_cons in Hsz.
    rewrite parse_elems_S.
    destruct vs as [|w vs].
    + cbn [elems_text map join_with].
      rewrite (IHv v k _ Hv ltac:(lia) (delimited_newline k' _)).
      rewrite skip_ws_newline_indent. reflexivity.
    + rewrite elems_text_cons, sapp_assoc. cbn [String.append].
      rewrite (IHv v k _ Hv ltac:(lia) (delimited_comma _)).
      rewrite skip_ws_stop by done. simpl Ascii.eqb. cbv iota.
      rewrite sapp_assoc, skip_ws_newline_indent.
      pose proof (IHe (w :: vs) k k' rest (cons_nonempty _ _) Hvs
                    ltac:(lia)) as He.
      destruct (dump_head k w) as (c & t & Hd & Hws & _).
      assert (exists u, elems_text k (w :: vs) ++ newline_indent k' ++ String "]" rest
                        = String c u) as [u Hu].
      { destruct vs; [cbn [elems_text map join_with] | rewrite elems_text_cons];
          rewrite Hd; cbn [String.append]; eauto. }
      rewrite Hu in He |- *. rewrite (skip_ws_stop _ _ Hws), He. done.
  - intros kvs k k' rest Hne Hwf Hsz.
    destruct kvs as [|[key v] kvs]; [done|]. clear Hne.
    inversion Hwf as [|? ? Hv Hvs]; subst. cbn [snd] in Hv.
    rewrite size_members_cons in Hsz.
    rewrite parse_members_S.
    destruct kvs as [|w kvs].
    + cbn [members_text map join_with fst snd].
      rewrite !sapp_assoc.
      destruct (scan_dump_str key (": " ++ dump k v ++ newline_indent k' ++ String "}" rest))
        as (t & -> & ->).
      rewrite Ascii.eqb_refl. cbn [String.append].
      rewrite skip_ws_stop by done. simpl Ascii.eqb. cbv iota.
      change (skip_ws (String " " ?x)) with (skip_ws x).
      rewrite skip_ws_dump.
      rewrite (IHv v k _ Hv ltac:(lia) (delimited_newline k' _)).
      rewrite skip_ws_newline_indent. reflexivity.
    + rewrite members_text_cons, !sapp_assoc.
      match goal with |- context [dump_str key ++ ?r] =>
        destruct (scan_dump_str key r) as (t & -> & ->) end.
      rewrite Ascii.eqb_refl. cbn [String.append].
      rewrite skip_ws_stop by done. simpl Ascii.eqb. cbv iota.
      change (skip_ws (String " " ?x)) with (skip_ws x).
      rewrite sapp_assoc. cbn [String.append].
      rewrite skip_ws_dump.
      rewrite (IHv v k _ Hv ltac:(lia) (delimited_comma _)).
      rewrite skip_ws_stop by done. simpl Ascii.eqb. cbv iota.
      rewrite sapp_assoc, skip_ws_newline_indent.
      pose proof (IHm (w :: kvs) k k' rest (cons_nonempty _ _) Hvs
                    ltac:(lia)) as He.
      assert (exists u, members_text k (w :: kvs) ++ newline_indent k' ++ String "}" rest
                        = String DQ u) as [u Hu].
      { destruct w as [k2 v2]. destruct kvs;
          [cbn [members_text map join_with fst snd] | rewrite members_text_cons];
          unfold dump_str; cbn [String.append]; eauto. }
      rewrite Hu in He |- *. rewrite skip_ws_stop by done. rewrite He. done.
Qed.

(** *** What the scanner returns is well formed *)

Lemma parse_wf n :
  (forall s v r, parse_value n s = Some (v, r) -> wf v)
  /\ (forall s vs r, parse_elems n s = Some (vs, r) -> Forall wf vs)
  /\ (forall s kvs r, parse_members n s = Some (kvs, r) ->
        Forall (fun kv => wf (snd kv)) kvs).
Proof.
  induction n as [|n (IHv & IHe & IHm)]; [by split_and!|].
  split_and!.
  - intros [|c s] v r Hp; [done|]. rewrite parse_value_S in Hp.
    repeat case_match; simplify_eq; try by repeat constructor.
    + match goal with Hm : parse_members n _ = Some (?l, _) |- _ =>
        destruct (dict_fold_wf (fun kv => wf (snd kv)) [] l) as [Hnd Hall];
          [constructor | constructor | by eapply IHm |]
      end.
      by constructor.
    + constructor. by eapply IHe.
  - intros s vs r Hp. rewrite parse_elems_S in Hp.
    repeat case_match; simplify_eq.
    + constructor; [by eapply IHv | by eapply IHe].
    + constructor; [by eapply IHv | constructor].
  - intros s kvs r Hp. rewrite parse_members_S in Hp.
    repeat case_match; simplify_eq.
    + constructor; [by eapply IHv | by eapply IHm].
    + constructor; [by eapply IHv | constructor].
Qed.

(** *** A larger bound reads the same value *)

Lemma parse_more n :
  (forall s x, parse_value n s = Some x -> parse_value (S n) s = Some x)
  /\ (forall s x, parse_elems n s = Some x -> parse_elems (S n) s = Some x)
  /\ (forall s x, parse_members n s = Some x -> parse_members (S n) s = Some x).
Proof.
  induction n as [|n (IHv & IHe & IHm)]; [by split_and!|].
  split_and!.
  - intros [|c s] x Hp; [done|].
    rewrite parse_value_S in Hp. rewrite parse_value_S.
    repeat case_match; simplify_eq; try done;
      repeat match goal with
        | Hm : parse_members n _ = Some _ |- _ => apply IHm in Hm
        | Hm : parse_elems n _ = Some _ |- _ => apply IHe in Hm
        end; congruence.
  - intros s x Hp. rewrite parse_elems_S in Hp. rewrite parse_elems_S.
    destruct (parse_value n s) as [[v r]|] eqn:Ev; [|done].
    rewrite (IHv _ _ Ev).
    repeat case_match; simplify_eq; try done;
      repeat match goal with
        | Hm : parse_elems n _ = Some _ |- _ => apply IHe in Hm
        end; congruence.
  - intros s x Hp. rewrite parse_members_S in Hp. rewrite parse_members_S.
    repeat case_match; simplify_eq; try done;
      repeat match goal with
        | Hm : parse_members n _ = Some _ |- _ => apply IHm in Hm
        | Hm : parse_value n _ = Some _ |- _ => apply IHv in Hm
        end; congruence.
Qed.

Lemma parse_value_mono n m s x :
  n <= m -> parse_value n s = Some x -> parse_value m s = Some x.
Proof.
  induction 1 as [|m Hle IH]; [done|]. intros Hp.
  by apply (proj1 (parse_more m)), IH.
Qed.

(** *** A line feed after the text *)

Lemma skip_ws_app s c t x :
  skip_ws s = String c t -> skip_ws (s ++ x) = String c t ++ x.
Proof.
  induction s as [|d s IH]; [done|]. simpl.
  destruct (is_ws d); [done|]. by intros [= -> ->].
Qed.

Lemma skip_ws_all s : skip_ws s = "" -> skip_ws (s ++ nl) = "".
Proof.
  induction s as [|d s IH]; [done|]. simpl. by destruct (is_ws d).
Qed.

Lemma scan_string_app_len n s t r x :
  String.length s <= n ->
  scan_string s = Some (t, r) -> scan_string (s ++ x) = Some (t, r ++ x).
Proof.
  revert s t r. induction n as [|n IH]; intros s t r Hn Hs.
  { destruct s; [done | simpl in Hn; lia]. }
  destruct s as [|c s]; [done|]. simpl in Hn.
  cbn [scan_string String.append] in Hs |- *.
  destruct (Ascii.eqb c DQ); [by simplify_eq|].
  destruct (Ascii.eqb c BS).
  - destruct s as [|e s]; [done|]. simpl in Hn. cbn [String.append].
    destruct (Ascii.eqb e "u").
    + destruct s as [|h3 [|h2 [|h1 [|h0 s]]]]; simpl in Hn; cbn [String.append];
        try done.
      repeat case_match; simplify_eq; try done;
        match goal with
        | Hq : scan_string ?u = Some _, Hq' : scan_string (?u ++ x) = _ |- _ =>
            rewrite (IH u _ _ ltac:(lia) Hq) in Hq'; by simplify_eq
        end.
    + destruct (unescape e); [|done].
      destruct (scan_string s) as [[t' r']|] eqn:E; [|done].
      rewrite (IH s _ _ ltac:(lia) E). by simplify_eq.
  - destruct (nat_of_ascii c <? 32)%nat; [done|].
    destruct (scan_string s) as [[t' r']|] eqn:E; [|done].
    rewrite (IH s _ _ ltac:(lia) E). by simplify_eq.
Qed.

Lemma scan_string_app s t r x :
  scan_string s = Some (t, r) -> scan_string (s ++ x) = Some (t, r ++ x).
Proof. by apply (scan_string_app_len (String.length s)). Qed.

Lemma scan_digits_nl s :
  scan_digits (s ++ nl) = (fst (scan_digits s), snd (scan_digits s) ++ nl).
Proof.
  induction s as [|c s IH]; [done|].
  cbn [String.append scan_digits]. rewrite IH.
  destruct (is_digit c); [|done].
  destruct (scan_digits s) as [u r]. cbn [fst snd].
  by destruct (uint_of_char c (Some u)).
Qed.

Lemma float_tail_nl r : float_tail (r ++ nl) = float_tail r.
Proof. by destruct r. Qed.

Lemma scan_nat_nl s n r :
  scan_nat s = Some (n, r) -> scan_nat (s ++ nl) = Some (n, r ++ nl).
Proof.
  destruct s as [|c s]; [done|].
  change (String c s ++ nl) with (String c (s ++ nl)). unfold scan_nat.
  destruct (Ascii.eqb c "0").
  - rewrite float_tail_nl. destruct (float_tail s); [done|]. intros ?; by simplify_eq.
  - destruct (is_digit c); [|done].
    change (String c (s ++ nl)) with (String c s ++ nl).
    rewrite scan_digits_nl. destruct (scan_digits (String c s)) as [u r'].
    cbn [fst snd]. rewrite float_tail_nl.
    destruct (float_tail r'); [done|]. intros ?; by simplify_eq.
Qed.

Lemma scan_int_nl s z r :
  scan_int s = Some (z, r) -> scan_int (s ++ nl) = Some (z, r ++ nl).
Proof.
  destruct s as [|c s]; [done|].
  change (String c s ++ nl) with (String c (s ++ nl)). unfold scan_int.
  destruct (Ascii.eqb c "-").
  - destruct (scan_nat s) as [[n r']|] eqn:E; [|done].
    rewrite (scan_nat_nl _ _ _ E). intros ?; by simplify_eq.
  - change (String c (s ++ nl)) with (String c s ++ nl).
    destruct (scan_nat (String c s)) as [[n r']|] eqn:E; [|done].
    rewrite (scan_nat_nl _ _ _ E). intros ?; by simplify_eq.
Qed.

(** A word without a line feed is a prefix of the text before the line feed
    or of none of the two. *)
Lemma prefix_nl p s :
  contains LF p = false -> String.prefix p (s ++ nl) = String.prefix p s.
Proof.
  revert s. induction p as [|a p IH]; intros s Hp.
  - by destruct s.
  - simpl in Hp. apply orb_false_iff in Hp as [Ha Hp].
    destruct s as [|c s].
    + simpl. destruct (ascii_dec a LF) as [->|]; [done|]. done.
    + simpl. destruct (ascii_dec a c); [by apply IH | done].
Qed.

Lemma slice_from_nl k s :
  k <= String.length s -> PyStr.slice_from k (s ++ nl) = PyStr.slice_from k s ++ nl.
Proof.
  revert s. induction k as [|k IH]; intros s Hk; [done|].
  destruct s as [|c s]; simpl in Hk; [lia|]. simpl. apply IH. lia.
Qed.

Lemma prefix_length p s : String.prefix p s = true -> String.length p <= String.length s.
Proof.
  revert s. induction p as [|a p IH]; intros s Hp; [simpl; lia|].
  destruct s as [|c s]; [done|]. simpl in *.
  destruct (ascii_dec a c); [|done]. apply IH in Hp. lia.
Qed.

Lemma parse_value_nil n : parse_value n "" = None.
Proof. by destruct n. Qed.

Lemma parse_elems_nil n : parse_elems n "" = None.
Proof. destruct n; [done|]. rewrite parse_elems_S. by rewrite parse_value_nil. Qed.

Lemma parse_members_nil n : parse_members n "" = None.
Proof. by destruct n. Qed.

Lemma parse_nl n :
  (forall s v r, parse_value n s = Some (v, r) ->
                 parse_value n (s ++ nl) = Some (v, r ++ nl))
  /\ (forall s vs r, parse_elems n s = Some (vs, r) ->
                     parse_elems n (s ++ nl) = Some (vs, r ++ nl))
  /\ (forall s kvs r, parse_members n s = Some (kvs, r) ->
                      parse_members n (s ++ nl) = Some (kvs, r ++ nl)).
Proof.
  induction n as [|n (IHv & IHe & IHm)]; [by split_and!|].
  split_and!.
  - intros [|c s] v r Hp; [done|].
    change (String c s ++ nl) with (String c (s ++ nl)).
    rewrite parse_value_S in Hp. rewrite parse_value_S.
    destruct (Ascii.eqb c DQ).
    { destruct (scan_string s) as [[t r']|] eqn:E; [|done].
      rewrite (scan_string_app _ _ _ nl E). by simplify_eq. }
    destruct (Ascii.eqb c "{").
    { destruct (skip_ws s) as [|c' r'] eqn:E; [done|].
      rewrite (skip_ws_app _ _ _ nl E). cbn [String.append].
      destruct (Ascii.eqb c' "}"); [by simplify_eq|].
      destruct (parse_members n (String c' r')) as [[kvs r'']|] eqn:Em; [|done].
      apply IHm in Em. cbn [String.append] in Em. rewrite Em. by simplify_eq. }
    destruct (Ascii.eqb c "[").
    { destruct (skip_ws s) as [|c' r'] eqn:E; [done|].
      rewrite (skip_ws_app _ _ _ nl E). cbn [String.append].
      destruct (Ascii.eqb c' "]"); [by simplify_eq|].
      destruct (parse_elems n (String c' r')) as [[vs r'']|] eqn:Em; [|done].
      apply IHe in Em. cbn [String.append] in Em. rewrite Em. by simplify_eq. }
    change (String c (s ++ nl)) with (String c s ++ nl).
    rewrite !prefix_nl by done.
    destruct (String.prefix "null" (String c s)) eqn:E1.
    { apply prefix_length in E1. rewrite slice_from_nl by done. by simplify_eq. }
    destruct (String.prefix "true" (String c s)) eqn:E2.
    { apply prefix_length in E2. rewrite slice_from_nl by done. by simplify_eq. }
    destruct (String.prefix "false" (String c s)) eqn:E3.
    { apply prefix_length in E3. rewrite slice_from_nl by done. by simplify_eq. }
    destruct (scan_int (String c s)) as [[z r']|] eqn:E; [|done].
    rewrite (scan_int_nl _ _ _ E). by simplify_eq.
  - intros s vs r Hp. rewrite parse_elems_S in Hp. rewrite parse_elems_S.
    destruct (parse_value n s) as [[v r0]|] eqn:Ev; [|done].
    rewrite (IHv _ _ _ Ev).
    destruct (skip_ws r0) as [|c r1] eqn:E; [done|].
    rewrite (skip_ws_app _ _ _ nl E). cbn [String.append].
    destruct (Ascii.eqb c ",").
    + destruct (parse_elems n (skip_ws r1)) as [[vs' r2]|] eqn:Ee; [|done].
      destruct (skip_ws r1) as [|c2 r3] eqn:E2.
      { by rewrite parse_elems_nil in Ee. }
      rewrite (skip_ws_app _ _ _ nl E2). rewrite (IHe _ _ _ Ee). by simplify_eq.
    + destruct (Ascii.eqb c "]"); by simplify_eq.
  - intros s kvs r Hp. rewrite parse_members_S in Hp. rewrite parse_members_S.
    destruct s as [|q s]; [done|]. cbn [String.append].
    destruct (Ascii.eqb q DQ); [|done].
    destruct (scan_string s) as [[k r1]|] eqn:Ek; [|done].
    rewrite (scan_string_app _ _ _ nl Ek).
    destruct (skip_ws r1) as [|c r2] eqn:E1; [done|].
    rewrite (skip_ws_app _ _ _ nl E1). cbn [String.append].
    destruct (Ascii.eqb c ":"); [|done].
    destruct (parse_value n (skip_ws r2)) as [[v r3]|] eqn:Ev; [|done].
    destruct (skip_ws r2) as [|c2 r2'] eqn:E2.
    { by rewrite parse_value_nil in Ev. }
    rewrite (skip_ws_app _ _ _ nl E2). rewrite (IHv _ _ _ Ev).
    destruct (skip_ws r3) as [|c3 r4] eqn:E3; [done|].
    rewrite (skip_ws_app _ _ _ nl E3). cbn [String.append].
    destruct (Ascii.eqb c3 ",").
    + destruct (parse_members n (skip_ws r4)) as [[kvs' r5]|] eqn:Em; [|done].
      destruct (skip_ws r4) as [|c4 r4'] eqn:E4.
      { by rewrite parse_members_nil in Em. }
      rewrite (skip_ws_app _ _ _ nl E4). rewrite (IHm _ _ _ Em). by simplify_eq.
    + destruct (Ascii.eqb c3 "}"); by simplify_eq.
Qed.

(** *** The text is long enough to bound the nested calls *)

Lemma length_app (a b : string) :
  String.length (a ++ b) = String.length a + String.length b.
Proof. induction a as [|c a IH]; simpl; [done | by rewrite IH]. Qed.

Lemma length_newline_indent lvl : 1 <= String.length (newline_indent lvl).
Proof. unfold newline_indent. simpl. lia. Qed.

Lemma size_length n :
  (forall v lvl, size v <= n -> size v <= String.length (dump lvl v))
  /\ (forall vs k, vs <> [] -> size_elems vs <= n ->
        size_elems vs <= S (String.length (elems_text k vs)))
  /\ (forall kvs k, kvs <> [] -> size_members kvs <= n ->
        size_members kvs <= S (String.length (members_text k kvs))).
Proof.
  induction n as [|n (IHv & IHe & IHm)].
  { split_and!.
    - intros v ? Hs. destruct v; simpl in Hs; lia.
    - intros [|v vs] ? Hne Hs; [done | simpl in Hs; lia].
    - intros [|v vs] ? Hne Hs; [done | simpl in Hs; lia]. }
  split_and!.
  - intros v lvl Hsz.
    destruct v as [|[]|z|s|[|x l]|[|x l]];
      try (destruct (dump_head lvl ltac:(eassumption || exact JNull)) as (c & t & Hd & _);
           fail);
      try (simpl; lia).
    + destruct (dump_head lvl (JInt z)) as (c & t & -> & _). simpl. lia.
    + rewrite dump_arr, size_arr in *. cbn [String.length].
      rewrite !length_app.
      pose proof (IHe (x :: l) (S lvl) (cons_nonempty _ _) ltac:(lia)).
      pose proof (length_newline_indent (S lvl)). lia.
    + rewrite dump_obj, size_obj in *. cbn [String.length].
      rewrite !length_app.
      pose proof (IHm (x :: l) (S lvl) (cons_nonempty _ _) ltac:(lia)).
      pose proof (length_newline_indent (S lvl)). lia.
  - intros vs k Hne Hsz. destruct vs as [|v [|w vs]]; [done| |].
    + rewrite size_elems_cons in *. cbn [elems_text map join_with].
      pose proof (IHv v k ltac:(lia)). simpl. lia.
    + rewrite size_elems_cons in Hsz |- *. rewrite elems_text_cons.
      rewrite length_app. cbn [String.length]. rewrite length_app.
      pose proof (IHv v k ltac:(lia)).
      pose proof (IHe (w :: vs) k (cons_nonempty _ _) ltac:(lia)).
      pose proof (length_newline_indent k). lia.
  - intros kvs k Hne Hsz. destruct kvs as [|[key v] [|w kvs]]; [done| |].
    + rewrite size_members_cons in *. cbn [members_text map join_with fst snd].
      rewrite !length_app. pose proof (IHv v k ltac:(lia)). simpl. lia.
    + rewrite size_members_cons in Hsz |- *. rewrite members_text_cons.
      rewrite length_app. cbn [String.length]. rewrite !length_app.
      cbn [String.length]. rewrite length_app.
      pose proof (IHv v k ltac:(lia)).
      pose proof (IHm (w :: kvs) k (cons_nonempty _ _) ltac:(lia)).
      pose proof (length_newline_indent k). lia.
Qed.

(** *** The laws *)

Lemma loads_wf s d : loads s = Some d -> wf d.
Proof.
  unfold loads. intros Hl.
  destruct (parse_value _ _) as [[v r]|] eqn:E; [|done].
  destruct (skip_ws r); [|done]. simplify_eq.
  by apply (proj1 (parse_wf _) _ _ _ E).
Qed.

Lemma loads_dumps_wf d : wf d -> loads (dumps d) = Some d.
Proof.
  intros Hwf. unfold loads, dumps.
  pose proof (skip_ws_dump 0 d "") as Hs. rewrite sapp_nil_r in Hs. rewrite Hs.
  pose proof (proj1 (size_length (size d)) d 0 ltac:(lia)) as Hlen.
  pose proof (proj1 (parse_dump (S (String.length (dump 0 d)))) d 0 ""
                Hwf ltac:(lia) I) as Hp.
  rewrite sapp_nil_r in Hp. by rewrite Hp.
Qed.

Lemma loads_nl s d : loads s = Some d -> loads (s ++ nl) = Some d.
Proof.
  unfold loads. intros Hl.
  destruct (parse_value _ _) as [[v r]|] eqn:E; [|done].
  destruct (skip_ws r) eqn:Er; [|done]. simplify_eq.
  destruct (skip_ws s) as [|c t] eqn:Es.
  { by rewrite parse_value_nil in E. }
  rewrite (skip_ws_app _ _ _ nl Es).
  apply (proj1 (parse_nl _)) in E.
  assert (S (String.length s) <= S (String.length (s ++ nl))) as Hle
    by (rewrite length_app; lia).
  rewrite (parse_value_mono _ _ _ _ Hle E).
  by rewrite (skip_ws_all _ Er).
Qed.

(** No document begins with the word [event:]. *)
Lemma loads_event s : PyStr.startswith s "event:" = true -> loads s = None.
Proof.
  intros [r ->]%startswith_inv. unfold loads. cbn [String.append].
  rewrite skip_ws_stop by done. rewrite parse_value_S. reflexivity.
Qed.
End RefJsonFacts.

Lemma ref_json_laws : JsonLaws ref_json.
Proof.
  split.
  - intros s d Hl. apply RefJsonFacts.loads_dumps_wf, (RefJsonFacts.loads_wf s), Hl.
  - apply RefJsonFacts.loads_nl.
Qed.

Lemma interaction_of_lookup rq r :
  exists m, interaction_of rq r = YDict m
            /\ m !! "request" = Some (YDict rq) /\ m !! "response" = Some (YDict r).
Proof.
  eexists. split; [reflexivity|]. split.
  - apply lookup_insert_eq.
  - rewrite lookup_insert_ne by done. apply lookup_insert_eq.
Qed.

(** * The claims *)

(** ** C1 *)

(** C1 (amended). For every response body that is valid JSON and does not
    start with an event-stream prefix, [print_bodies] prints the
    2-space-indented serialization of the parsed value and
    [print_response_body] prints the body itself; in both, parsing what was
    printed gives the value that parsing the body gives. *)
Theorem C1_valid_json_body `{J : JsonLib} (L : JsonLaws J)
    (body : string) (d : jvalue) (st : state) :
  json_loads body = Some d ->
  is_stream_pb body = false ->
  (PrintBodies.print_body (YStr body) st = (Ok tt, emit st (json_dumps d ++ nl))
   /\ json_loads (json_dumps d ++ nl) = Some d)
  /\ (PrintResponseBody.print_body (YStr body) st = (Ok tt, emit st (body ++ nl))
      /\ json_loads (body ++ nl) = Some d).
Proof.
  intros Hd Hs. unfold is_stream_pb in Hs.
  apply orb_false_iff in Hs as [Hdata Hevent].
  split_and!.
  - unfold PrintBodies.print_body. rewrite Hdata, Hevent. cbn [orb].
    rewrite pb_print_line. unfold line_text. by rewrite Hd.
  - eapply loads_newline, loads_dumps, Hd.
  - unfold PrintResponseBody.print_body. by rewrite Hdata.
  - by apply loads_newline.
Qed.

(** ** C2 *)

(** C2 (amended). Every non-empty request body is printed by
    JSON-parse-or-raw-print applied to the whole string, whether or not it
    starts with a stream prefix: after the [Request:] label comes the
    serialization of the parsed body, or the body itself when it does not
    parse; only the response body is decoded as an event stream. *)
Theorem C2_request_body_whole `{J : JsonLib}
    (m rq r : gmap string yaml) (req : string) (body : yaml) (st : state) :
  m !! "request" = Some (YDict rq) ->
  rq !! "body" = Some (YStr req) ->
  req <> "" ->
  m !! "response" = Some (YDict r) ->
  r !! "body" = Some body ->
  PrintBodies.interaction_step (YDict m) st
  = PrintBodies.print_body body
      (emit st (request_label ++ nl
                ++ match json_loads req with
                   | Some d => json_dumps d ++ nl
                   | None => req ++ nl
                   end
                ++ response_label ++ nl)).
Proof.
  intros Hrq Hreq Hne Hr Hb.
  rewrite (pb_step m rq st Hrq), Hreq.
  assert (truthy (YStr req) = true) as Ht by (by destruct req).
  cbv zeta. rewrite Ht.
  assert ((print request_label;; PrintBodies.print_line (YStr req)) st
          = (Ok tt, emit st (request_label ++ nl ++ line_text req))) as Hp.
  { rewrite (bind_ok _ _ _ _ _ (print_emit request_label st)).
    by rewrite pb_print_line, emit_emit, sapp_assoc. }
  rewrite (bind_ok _ _ _ _ _ Hp).
  rewrite (pb_step_response m r body _ Hr Hb), emit_emit.
  by rewrite !sapp_assoc.
Qed.

(** ** C3 *)

Lemma pb_step_no_request `{J : JsonLib} (m : gmap string yaml) (st : state) :
  m !! "request" = None ->
  PrintBodies.interaction_step (YDict m) st = (Raise KeyError, st).
Proof.
  intros Hn. unfold PrintBodies.interaction_step.
  unfold mbind at 1, M_bind at 1, bind at 1. simpl. by rewrite Hn.
Qed.

(** C3 (amended). For every interaction whose [request] dict has no [body]
    key, or a body that is false as a condition ([None], the empty string),
    [print_bodies] prints nothing for the request, raises nothing, and goes
    on with the [Response:] label and the response body. *)
Theorem C3_request_skipped `{J : JsonLib}
    (m rq r : gmap string yaml) (body : yaml) (st : state) :
  m !! "request" = Some (YDict rq) ->
  match rq !! "body" with Some v => truthy v = false | None => True end ->
  m !! "response" = Some (YDict r) ->
  r !! "body" = Some body ->
  PrintBodies.interaction_step (YDict m) st
  = PrintBodies.print_body body (emit st (response_label ++ nl)).
Proof.
  intros Hrq Hfalse Hr Hb. rewrite (pb_step m rq st Hrq). cbv zeta.
  assert (truthy match rq !! "body" with Some x => x | None => YNone end = false)
    as -> by (by destruct (rq !! "body")).
  change ((ret tt;; print response_label;;
           resp ← getitem (YDict m) "response";
           body ← getitem resp "body"; PrintBodies.print_body body) st)
    with ((print response_label;;
           resp ← getitem (YDict m) "response";
           body ← getitem resp "body"; PrintBodies.print_body body) st).
  apply (pb_step_response m r body st Hr Hb).
Qed.

(** ** C4 *)

(** C4. For the event-stream response body
    [data: {"a":1}\ndata: {"b":2}\n] both scripts print the serialization of
    [{"a":1}], then that of [{"b":2}], each followed by one line feed, and
    nothing else for the body: the empty piece after the last line feed
    leaves no blank line. ([print_bodies] prints the [Response:] label
    first.) *)
Theorem C4_two_blocks `{J : JsonLib} `{H : Host}
    (prog path : string) (rq : gmap string yaml) (da db : jvalue) :
  holds_interactions path [interaction_of rq {[ "body" := YStr two_events ]}] ->
  rq !! "body" = None ->
  json_loads ("{" ++ quoted "a" ++ ":1}") = Some da ->
  json_loads ("{" ++ quoted "b" ++ ":2}") = Some db ->
  PrintBodies.main [prog; path] initial
  = (Ok 0%Z, mkState (response_label ++ nl ++ json_dumps da ++ nl
                      ++ json_dumps db ++ nl) [path])
  /\ PrintResponseBody.main [prog; path] initial
     = (Ok 0%Z, mkState (json_dumps da ++ nl ++ json_dumps db ++ nl) [path]).
Proof.
  intros Hf Hrq Ha Hb.
  destruct (interaction_of_lookup rq {[ "body" := YStr two_events ]})
    as (m & Hm & Hreq & Hresp).
  assert (({[ "body" := YStr two_events ]} : gmap string yaml) !! "body"
          = Some (YStr two_events)) as Hbody by apply lookup_singleton_eq.
  assert (PyStr.split LF two_events
          = ["data: {" ++ quoted "a" ++ ":1}"; "data: {" ++ quoted "b" ++ ":2}"; ""])
    as Hsplit by reflexivity.
  assert (stream_text_pb ("data: {" ++ quoted "a" ++ ":1}") = json_dumps da ++ nl
          /\ stream_text_prb ("data: {" ++ quoted "a" ++ ":1}") = json_dumps da ++ nl)
    as [Hpa Hra].
  { unfold stream_text_pb, stream_text_prb.
    change (payload ("data: {" ++ quoted "a" ++ ":1}")) with ("{" ++ quoted "a" ++ ":1}").
    unfold line_text. rewrite Ha. by split. }
  assert (stream_text_pb ("data: {" ++ quoted "b" ++ ":2}") = json_dumps db ++ nl
          /\ stream_text_prb ("data: {" ++ quoted "b" ++ ":2}") = json_dumps db ++ nl)
    as [Hpb Hrb].
  { unfold stream_text_pb, stream_text_prb.
    change (payload ("data: {" ++ quoted "b" ++ ":2}")) with ("{" ++ quoted "b" ++ ":2}").
    unfold line_text. rewrite Hb. by split. }
  rewrite Hm in Hf. split.
  - apply (pb_main_ok prog path [] _ _ Hf), for_each_one.
    assert (PrintBodies.interaction_step (YDict m) (mkState "" [path])
            = (Ok tt, mkState (response_label ++ nl ++ json_dumps da ++ nl
                               ++ json_dumps db ++ nl) [path])) as Hstep.
    { rewrite (pb_step m rq _ Hreq), Hrq. cbv zeta. cbn [truthy].
      change ((ret tt;; print response_label;;
               resp ← getitem (YDict m) "response";
               body ← getitem resp "body"; PrintBodies.print_body body)
                (mkState "" [path]))
        with ((print response_label;;
               resp ← getitem (YDict m) "response";
               body ← getitem resp "body"; PrintBodies.print_body body)
                (mkState "" [path])).
      rewrite (pb_step_response m _ _ _ Hresp Hbody).
      rewrite pb_print_stream by reflexivity.
      rewrite Hsplit. cbn [map String.concat]. rewrite Hpa, Hpb.
      unfold emit. cbn [stdout opened]. rewrite !sapp_assoc.
      cbn [String.append]. by rewrite !sapp_nil_r. }
    exact Hstep.
  - apply (prb_main_ok prog path [] _ _ Hf), for_each_one.
    assert (PrintResponseBody.interaction_step (YDict m) (mkState "" [path])
            = (Ok tt, mkState (json_dumps da ++ nl ++ json_dumps db ++ nl) [path]))
      as Hstep.
    { rewrite (prb_step m _ _ _ Hresp Hbody).
      rewrite prb_print_stream by reflexivity.
      rewrite Hsplit. cbn [map String.concat]. rewrite Hra, Hrb.
      unfold emit. cbn [stdout opened]. rewrite !sapp_assoc.
      cbn [String.append]. by rewrite !sapp_nil_r. }
    exact Hstep.
Qed.

(** ** C5 *)

Lemma pb_stream_event `{J : JsonLib} e st :
  PyStr.startswith e "event:" = true -> PrintBodies.stream_line e st = (Ok tt, st).
Proof. intros He. unfold PrintBodies.stream_line. by rewrite He. Qed.

Lemma for_each_skip {A} (pre post : list A) (x : A) (body : A -> M unit) st :
  (forall s, body x s = (Ok tt, s)) ->
  for_each (pre ++ x :: post) body st = for_each (pre ++ post) body st.
Proof.
  intros Hx. revert st. induction pre as [|y pre IH]; intros st.
  - simpl. by rewrite (bind_ok _ _ _ _ _ (Hx st)).
  - simpl. unfold mbind, M_bind, bind.
    destruct (body y st) as [[[]|err] s1]; [apply IH | done].
Qed.

(** C5. In [print_bodies], a line of an event-stream body that begins with
    [event:] adds nothing to the output: the body is printed as its other
    lines alone would be, and a [data:] line still has its payload decoded
    and printed. *)
Theorem C5_event_lines_suppressed `{J : JsonLib}
    (body : string) (pre post : list string) (e : string) (st : state) :
  is_stream_pb body = true ->
  PyStr.split LF body = (pre ++ e :: post)%list ->
  PyStr.startswith e "event:" = true ->
  PrintBodies.stream_line e st = (Ok tt, st)
  /\ PrintBodies.print_body (YStr body) st
     = for_each (pre ++ post) PrintBodies.stream_line st
  /\ (forall p d s,
        PyStr.strip p <> "" -> json_loads (PyStr.strip p) = Some d ->
        PrintBodies.stream_line ("data:" ++ p) s
        = (Ok tt, emit s (json_dumps d ++ nl))).
Proof.
  intros Hs Hlines He. split_and!.
  - by apply pb_stream_event.
  - unfold PrintBodies.print_body. unfold is_stream_pb in Hs. rewrite Hs, Hlines.
    apply for_each_skip. intros s. by apply pb_stream_event.
  - intros p d s Hne Hd. rewrite pb_stream_line. unfold stream_text_pb, payload.
    change (PyStr.startswith ("data:" ++ p) "event:") with false.
    rewrite (startswith_app "data:" p).
    change (PyStr.slice_from 5 ("data:" ++ p)) with p.
    unfold line_text. rewrite Hd. by destruct (PyStr.strip p).
Qed.

(** ** C6 *)

(** C6. In both scripts, a line of an event stream that begins with [data:]
    loses exactly these 5 characters; what remains is trimmed of white space
    at both ends and of nothing else; when nothing is left the line prints
    nothing, otherwise the trimmed text goes through
    JSON-parse-or-raw-print. *)
Theorem C6_data_prefix_stripped `{J : JsonLib} (rest : string) (st : state) :
  let line := "data:" ++ rest in
  let p := PyStr.strip rest in
  (String.length "data:" = 5 /\ PyStr.slice_from 5 line = rest)
  /\ (exists l r, rest = l ++ p ++ r
                  /\ all_space l = true /\ all_space r = true
                  /\ match p with
                     | String c _ => PyStr.isspace c = false
                     | EmptyString => True
                     end
                  /\ match last_char p with
                     | Some c => PyStr.isspace c = false
                     | None => True
                     end)
  /\ PrintBodies.stream_line line st
     = (Ok tt, if PyStr.nonempty p then emit st (line_text p) else st)
  /\ PrintResponseBody.stream_line line st
     = (Ok tt, if PyStr.nonempty p then emit st (line_text p) else st).
Proof.
  intros line p. subst line p.
  assert (payload ("data:" ++ rest) = PyStr.strip rest) as Hp.
  { unfold payload. by rewrite (startswith_app "data:" rest). }
  split_and!.
  - reflexivity.
  - reflexivity.
  - apply strip_spec.
  - rewrite pb_stream_line. unfold stream_text_pb.
    change (PyStr.startswith ("data:" ++ rest) "event:") with false. cbv iota.
    rewrite Hp. destruct (PyStr.nonempty _); [done | by rewrite emit_empty].
  - rewrite prb_stream_line. unfold stream_text_prb.
    rewrite Hp. destruct (PyStr.nonempty _); [done | by rewrite emit_empty].
Qed.

(** ** C7 *)

(** C7. A string that is not valid JSON is printed as it is and no
    exception reaches the caller: this holds for [print_line], for the
    payload of a stream line in both scripts, and for a whole response body
    that starts with no event-stream prefix, whose output is the body
    followed by the line feed of [print]. *)
Theorem C7_invalid_json_raw `{J : JsonLib} (s : string) (st : state) :
  json_loads s = None ->
  PrintBodies.print_line (YStr s) st = (Ok tt, emit st (s ++ nl))
  /\ (forall line,
        payload line = s -> s <> "" ->
        (PyStr.startswith line "event:" = false ->
         PrintBodies.stream_line line st = (Ok tt, emit st (s ++ nl)))
        /\ PrintResponseBody.stream_line line st = (Ok tt, emit st (s ++ nl)))
  /\ (is_stream_pb s = false ->
      PrintBodies.print_body (YStr s) st = (Ok tt, emit st (s ++ nl)))
  /\ (is_stream_prb s = false ->
      PrintResponseBody.print_body (YStr s) st = (Ok tt, emit st (s ++ nl))).
Proof.
  intros Hn.
  assert (line_text s = s ++ nl) as Ht by (unfold line_text; by rewrite Hn).
  split_and!.
  - by rewrite pb_print_line, Ht.
  - intros line Hp Hne.
    assert (PyStr.nonempty s = true) as Hs by (by destruct s).
    split.
    + intros He. rewrite pb_stream_line. unfold stream_text_pb.
      by rewrite He, Hp, Hs, Ht.
    + rewrite prb_stream_line. unfold stream_text_prb. by rewrite Hp, Hs, Ht.
  - unfold is_stream_pb, PrintBodies.print_body. intros ->.
    by rewrite pb_print_line, Ht.
  - unfold is_stream_prb, PrintResponseBody.print_body. by intros ->.
Qed.

(** ** C8 *)

(** C8. Without a file name on the command line each script prints its
    usage line, returns 1 and opens no file; with a file name and a
    well-formed file it returns 0, having opened that file only. *)
Theorem C8_usage_and_status `{J : JsonLib} `{H : Host} :
  (forall argv, length argv < 2 ->
     PrintBodies.main argv initial
     = (Ok 1%Z, mkState ("Usage: print_bodies.py <filename>" ++ nl) [])
     /\ PrintResponseBody.main argv initial
        = (Ok 1%Z, mkState ("Usage: print_response_body.py <filename>" ++ nl) []))
  /\ (forall prog path rest items,
        holds_interactions path items ->
        Forall wf_interaction items ->
        (exists out, PrintBodies.main (prog :: path :: rest) initial
                     = (Ok 0%Z, mkState out [path]))
        /\ (exists out, PrintResponseBody.main (prog :: path :: rest) initial
                        = (Ok 0%Z, mkState out [path]))).
Proof.
  split.
  - intros argv Hlen. unfold PrintBodies.main, PrintResponseBody.main.
    assert ((length argv <? 2)%nat = true) as -> by (by apply Nat.ltb_lt).
    done.
  - intros prog path rest items Hf Hwf. split.
    + destruct (for_each_ok wf_interaction PrintBodies.interaction_step items
                  (mkState "" [path])) as [out Hout]; [|done|].
      { intros x s Hx. by apply pb_step_ok. }
      exists out. by apply (pb_main_ok prog path rest items _ Hf).
    + destruct (for_each_ok wf_response PrintResponseBody.interaction_step items
                  (mkState "" [path])) as [out Hout].
      { intros x s Hx. by apply prb_step_ok. }
      { eapply Forall_impl; [exact Hwf | by intros x [Hx _]]. }
      exists out. by apply (prb_main_ok prog path rest items _ Hf).
Qed.

(** ** C9 *)

(** C9. For a file whose [interactions] entry is the empty list both
    scripts print nothing and return 0. *)
Theorem C9_empty_interactions `{J : JsonLib} `{H : Host}
    (prog path : string) (rest : list string) :
  holds_interactions path [] ->
  PrintBodies.main (prog :: path :: rest) initial = (Ok 0%Z, mkState "" [path])
  /\ PrintResponseBody.main (prog :: path :: rest) initial
     = (Ok 0%Z, mkState "" [path]).
Proof.
  intros Hf. split.
  - by apply (pb_main_ok prog path rest [] _ Hf).
  - by apply (prb_main_ok prog path rest [] _ Hf).
Qed.

(** ** C10 *)

Lemma strip_keeps_event (e : string) :
  PyStr.startswith e "event:" = true ->
  PyStr.startswith (PyStr.strip e) "event:" = true.
Proof.
  intros [r ->]%startswith_inv. unfold PyStr.strip.
  change (PyStr.lstrip ("event:" ++ r)) with ("event" ++ String ":" r).
  rewrite rstrip_app_keep by reflexivity.
  destruct (rstrip_head ":" r) as [t ->]; [reflexivity|].
  exact (startswith_app "event:" t).
Qed.

Lemma for_each_middle {A} (pre post : list A) (x : A) (body : A -> M unit) st :
  (forall y s, exists text, body y s = (Ok tt, emit s text)) ->
  for_each (pre ++ x :: post) body st
  = (for_each pre body;; body x;; for_each post body) st.
Proof.
  intros Hb. revert st. induction pre as [|y pre IH]; intros st; [done|].
  destruct (Hb y st) as [t Ht].
  change (for_each ((y :: pre) ++ x :: post) body st)
    with ((body y;; for_each (pre ++ x :: post) body) st).
  rewrite (bind_ok _ _ _ _ _ Ht), IH.
  unfold mbind, M_bind, bind. simpl. unfold mbind, M_bind, bind. by rewrite Ht.
Qed.

(** C10. In [print_response_body], a line that begins with [event:] inside
    a body that starts with [data:] is not skipped: it is trimmed of white
    space, is not valid JSON, and is printed as trimmed, between what the
    lines before it and the lines after it print. *)
Theorem C10_event_line_printed `{J : JsonLib}
    (body : string) (pre post : list string) (e : string) (st : state) :
  (forall s, PyStr.startswith s "event:" = true -> json_loads s = None) ->
  is_stream_prb body = true ->
  PyStr.split LF body = (pre ++ e :: post)%list ->
  PyStr.startswith e "event:" = true ->
  PrintResponseBody.stream_line e st = (Ok tt, emit st (PyStr.strip e ++ nl))
  /\ PyStr.startswith (PyStr.strip e) "event:" = true
  /\ PrintResponseBody.print_body (YStr body) st
     = (for_each pre PrintResponseBody.stream_line;;
        print (PyStr.strip e);;
        for_each post PrintResponseBody.stream_line) st.
Proof.
  intros Hrej Hs Hlines He.
  pose proof (strip_keeps_event e He) as Hk.
  assert (forall s, PrintResponseBody.stream_line e s = print (PyStr.strip e) s) as Hline.
  { intros s. rewrite prb_stream_line. unfold stream_text_prb, payload.
    assert (PyStr.startswith e "data:" = false) as ->.
    { apply startswith_inv in He as [r ->]. done. }
    unfold line_text. rewrite (Hrej _ Hk).
    apply startswith_inv in Hk as [r ->]. done. }
  split_and!.
  - by rewrite Hline.
  - done.
  - unfold PrintResponseBody.print_body. unfold is_stream_prb in Hs.
    rewrite Hs, Hlines.
    rewrite for_each_middle by (intros; eexists; apply prb_stream_line).
    unfold mbind, M_bind, bind.
    destruct (for_each pre PrintResponseBody.stream_line st) as [[[]|err] s1]; [|done].
    by rewrite Hline.
Qed.

(** * Counterexamples, witnesses and examples

    The statements of this section are about the reference [json] module. *)

Section Concrete.
#[local] Existing Instance ref_json.

(** C1, as stated, fails for [print_response_body]: the body [{"a":1}] is
    valid JSON and does not start with [data:], and the script prints it as
    it is, not its 2-space-indented serialization. *)
Lemma C1_counterexample :
  let body := "{" ++ quoted "a" ++ ":1}" in
  let d := RefJson.JObj [("a", RefJson.JInt 1)] in
  json_loads body = Some d
  /\ is_stream_prb body = false
  /\ PrintResponseBody.print_body (YStr body) initial
     <> (Ok tt, emit initial (json_dumps d ++ nl)).
Proof. split_and!; [reflexivity | reflexivity | by vm_compute]. Qed.

Lemma C1_witness :
  let body := "{" ++ quoted "a" ++ ":1}" in
  let d := RefJson.JObj [("a", RefJson.JInt 1)] in
  json_loads body = Some d
  /\ is_stream_pb body = false
  /\ (PrintBodies.print_body (YStr body) initial
        = (Ok tt, emit initial (json_dumps d ++ nl))
      /\ json_loads (json_dumps d ++ nl) = Some d)
  /\ (PrintResponseBody.print_body (YStr body) initial
        = (Ok tt, emit initial (body ++ nl))
      /\ json_loads (body ++ nl) = Some d).
Proof.
  split; [reflexivity|]. split; [reflexivity|].
  apply (C1_valid_json_body ref_json_laws); reflexivity.
Defined.

(** C2, as stated, fails: a request body that starts with [data:] is not
    decoded as an event stream. With the same text as request and as
    response body, the run is not the one that decodes both alike. *)
Lemma C2_counterexample :
  let body := "data: {" ++ quoted "a" ++ ":1}" in
  let i := interaction_of {[ "body" := YStr body ]} {[ "body" := YStr body ]} in
  PrintBodies.interaction_step i initial
  <> (print request_label;; PrintBodies.print_body (YStr body);;
      print response_label;; PrintBodies.print_body (YStr body)) initial.
Proof. by vm_compute. Qed.

Lemma C2_witness :
  let body := "data: {" ++ quoted "a" ++ ":1}" in
  let rq : gmap string yaml := {[ "body" := YStr body ]} in
  let r : gmap string yaml := {[ "body" := YStr "ok" ]} in
  let m : gmap string yaml :=
    <["request" := YDict rq]> (<["response" := YDict r]> ∅) in
  m !! "request" = Some (YDict rq)
  /\ rq !! "body" = Some (YStr body)
  /\ body <> ""
  /\ m !! "response" = Some (YDict r)
  /\ r !! "body" = Some (YStr "ok")
  /\ PrintBodies.interaction_step (YDict m) initial
     = PrintBodies.print_body (YStr "ok")
         (emit initial (request_label ++ nl ++ (body ++ nl) ++ response_label ++ nl)).
Proof.
  intros body rq r m.
  assert (m !! "request" = Some (YDict rq)) as H1 by reflexivity.
  assert (rq !! "body" = Some (YStr body)) as H2 by reflexivity.
  assert (body <> "") as H3 by done.
  assert (m !! "response" = Some (YDict r)) as H4 by reflexivity.
  assert (r !! "body" = Some (YStr "ok")) as H5 by reflexivity.
  refine (conj H1 (conj H2 (conj H3 (conj H4 (conj H5 _))))).
  exact (C2_request_body_whole (J := ref_json) m rq r body (YStr "ok") initial
           H1 H2 H3 H4 H5).
Defined.

(** C3, as stated, fails: an interaction without a [request] entry stops
    the run with a [KeyError] before the [Response:] label is printed. *)
Lemma C3_counterexample :
  let i := YDict {[ "response" := YDict {[ "body" := YStr "ok" ]} ]} in
  PrintBodies.main (H0 := one_file [i]) ["print_bodies.py"; "one.yaml"] initial
  = (Raise KeyError, mkState "" ["one.yaml"]).
Proof. by vm_compute. Qed.

Lemma C3_witness :
  let r : gmap string yaml := {[ "body" := YStr "ok" ]} in
  let m : gmap string yaml :=
    <["request" := YDict ∅]> (<["response" := YDict r]> ∅) in
  m !! "request" = Some (YDict ∅)
  /\ (∅ : gmap string yaml) !! "body" = None
  /\ m !! "response" = Some (YDict r)
  /\ r !! "body" = Some (YStr "ok")
  /\ PrintBodies.interaction_step (YDict m) initial
     = PrintBodies.print_body (YStr "ok") (emit initial (response_label ++ nl)).
Proof.
  intros r m.
  assert (m !! "request" = Some (YDict ∅)) as H1 by reflexivity.
  assert ((∅ : gmap string yaml) !! "body" = None) as H2 by reflexivity.
  assert (m !! "response" = Some (YDict r)) as H3 by reflexivity.
  assert (r !! "body" = Some (YStr "ok")) as H4 by reflexivity.
  refine (conj H1 (conj H2 (conj H3 (conj H4 _)))).
  exact (C3_request_skipped m ∅ r (YStr "ok") initial H1 I H3 H4).
Defined.

Lemma C4_witness :
  let i := interaction_of ∅ {[ "body" := YStr two_events ]} in
  let da := RefJson.JObj [("a", RefJson.JInt 1)] in
  let db := RefJson.JObj [("b", RefJson.JInt 2)] in
  holds_interactions (H := one_file [i]) "one.yaml" [i]
  /\ (∅ : gmap string yaml) !! "body" = None
  /\ json_loads ("{" ++ quoted "a" ++ ":1}") = Some da
  /\ json_loads ("{" ++ quoted "b" ++ ":2}") = Some db
  /\ (PrintBodies.main (H0 := one_file [i]) ["print_bodies.py"; "one.yaml"] initial
      = (Ok 0%Z, mkState (response_label ++ nl ++ json_dumps da ++ nl
                          ++ json_dumps db ++ nl) ["one.yaml"])
      /\ PrintResponseBody.main (H0 := one_file [i])
           ["print_response_body.py"; "one.yaml"] initial
         = (Ok 0%Z, mkState (json_dumps da ++ nl ++ json_dumps db ++ nl) ["one.yaml"])).
Proof.
  intros i da db.
  assert (holds_interactions (H := one_file [i]) "one.yaml" [i]) as H1
    by (by eexists _, _).
  assert ((∅ : gmap string yaml) !! "body" = None) as H2 by reflexivity.
  assert (json_loads ("{" ++ quoted "a" ++ ":1}") = Some da) as H3 by reflexivity.
  assert (json_loads ("{" ++ quoted "b" ++ ":2}") = Some db) as H4 by reflexivity.
  refine (conj H1 (conj H2 (conj H3 (conj H4 _)))).
  split.
  - exact (proj1 (C4_two_blocks (H := one_file [i]) "print_bodies.py" "one.yaml"
                    ∅ da db H1 H2 H3 H4)).
  - exact (proj2 (C4_two_blocks (H := one_file [i]) "print_response_body.py" "one.yaml"
                    ∅ da db H1 H2 H3 H4)).
Defined.

(** The two blocks of the example, as the reference [json] module writes
    them. *)
Lemma two_blocks_text :
  json_dumps (RefJson.JObj [("a", RefJson.JInt 1)]) ++ nl
  ++ json_dumps (RefJson.JObj [("b", RefJson.JInt 2)]) ++ nl
  = "{" ++ nl ++ "  " ++ quoted "a" ++ ": 1" ++ nl ++ "}" ++ nl
    ++ "{" ++ nl ++ "  " ++ quoted "b" ++ ": 2" ++ nl ++ "}" ++ nl.
Proof. reflexivity. Qed.

Lemma C5_witness :
  let body := "event: ping" ++ nl ++ "data: {" ++ quoted "x" ++ ":1}" ++ nl in
  let e := "event: ping" in
  let post := ["data: {" ++ quoted "x" ++ ":1}"; ""] in
  is_stream_pb body = true
  /\ PyStr.split LF body = ([] ++ e :: post)%list
  /\ PyStr.startswith e "event:" = true
  /\ PrintBodies.stream_line e initial = (Ok tt, initial)
  /\ PrintBodies.print_body (YStr body) initial
     = for_each ([] ++ post) PrintBodies.stream_line initial
  /\ (forall p d s,
        PyStr.strip p <> "" -> json_loads (PyStr.strip p) = Some d ->
        PrintBodies.stream_line ("data:" ++ p) s
        = (Ok tt, emit s (json_dumps d ++ nl))).
Proof.
  intros body e post.
  assert (is_stream_pb body = true) as H1 by reflexivity.
  assert (PyStr.split LF body = ([] ++ e :: post)%list) as H2 by reflexivity.
  assert (PyStr.startswith e "event:" = true) as H3 by reflexivity.
  refine (conj H1 (conj H2 (conj H3 _))).
  exact (C5_event_lines_suppressed (J := ref_json) body [] post e initial H1 H2 H3).
Defined.

(** The example of C5: [event: ping\ndata: {"x":1}\n] prints the one block
    of [{"x":1}]. *)
Lemma event_ping_text :
  PrintBodies.print_body
    (YStr ("event: ping" ++ nl ++ "data: {" ++ quoted "x" ++ ":1}" ++ nl)) initial
  = (Ok tt, mkState ("{" ++ nl ++ "  " ++ quoted "x" ++ ": 1" ++ nl ++ "}" ++ nl) []).
Proof. reflexivity. Qed.


Lemma C7_witness :
  let s := "not json" in
  json_loads s = None
  /\ PrintBodies.print_line (YStr s) initial = (Ok tt, emit initial (s ++ nl))
  /\ (forall line,
        payload line = s -> s <> "" ->
        (PyStr.startswith line "event:" = false ->
         PrintBodies.stream_line line initial = (Ok tt, emit initial (s ++ nl)))
        /\ PrintResponseBody.stream_line line initial
           = (Ok tt, emit initial (s ++ nl)))
  /\ (is_stream_pb s = false ->
      PrintBodies.print_body (YStr s) initial = (Ok tt, emit initial (s ++ nl)))
  /\ (is_stream_prb s = false ->
      PrintResponseBody.print_body (YStr s) initial
      = (Ok tt, emit initial (s ++ nl))).
Proof.
  intros s.
  assert (json_loads s = None) as H1 by reflexivity.
  refine (conj H1 _).
  exact (C7_invalid_json_raw s initial H1).
Defined.

Lemma C8_witness :
  let i := interaction_of {[ "body" := YStr "{}" ]} {[ "body" := YStr "plain" ]} in
  length ["print_bodies.py"] < 2
  /\ holds_interactions (H := one_file [i]) "one.yaml" [i]
  /\ Forall wf_interaction [i]
  /\ PrintBodies.main (H0 := one_file [i]) ["print_bodies.py"] initial
     = (Ok 1%Z, mkState ("Usage: print_bodies.py <filename>" ++ nl) [])
  /\ (exists out, PrintBodies.main (H0 := one_file [i])
                    ["print_bodies.py"; "one.yaml"] initial
                  = (Ok 0%Z, mkState out ["one.yaml"]))
  /\ (exists out, PrintResponseBody.main (H0 := one_file [i])
                    ["print_bodies.py"; "one.yaml"] initial
                  = (Ok 0%Z, mkState out ["one.yaml"])).
Proof.
  intros i.
  assert (length ["print_bodies.py"] < 2) as H0 by (simpl; lia).
  assert (holds_interactions (H := one_file [i]) "one.yaml" [i]) as H1
    by (by eexists _, _).
  assert (Forall wf_interaction [i]) as H2.
  { constructor; [|constructor]. split.
    - by eexists _, _, _.
    - by eexists _, _. }
  refine (conj H0 (conj H1 (conj H2 _))).
  pose proof (C8_usage_and_status (H := one_file [i])) as [Hu Hf].
  exact (conj (proj1 (Hu _ H0))
              (Hf "print_bodies.py" "one.yaml" [] [i] H1 H2)).
Defined.

Lemma C9_witness :
  holds_interactions (H := one_file []) "one.yaml" []
  /\ PrintBodies.main (H0 := one_file []) ["print_bodies.py"; "one.yaml"] initial
     = (Ok 0%Z, mkState "" ["one.yaml"])
  /\ PrintResponseBody.main (H0 := one_file []) ["print_bodies.py"; "one.yaml"] initial
     = (Ok 0%Z, mkState "" ["one.yaml"]).
Proof.
  assert (holds_interactions (H := one_file []) "one.yaml" []) as H1
    by (by eexists _, _).
  refine (conj H1 _).
  exact (C9_empty_interactions (H := one_file []) "print_bodies.py" "one.yaml" [] H1).
Defined.

Lemma C10_witness :
  let body := "data: 1" ++ nl ++ "event: ping " ++ nl ++ "data: 2" ++ nl in
  let pre := ["data: 1"] in
  let e := "event: ping " in
  let post := ["data: 2"; ""] in
  (forall s, PyStr.startswith s "event:" = true -> json_loads s = None)
  /\ is_stream_prb body = true
  /\ PyStr.split LF body = (pre ++ e :: post)%list
  /\ PyStr.startswith e "event:" = true
  /\ PrintResponseBody.stream_line e initial
     = (Ok tt, emit initial (PyStr.strip e ++ nl))
  /\ PyStr.startswith (PyStr.strip e) "event:" = true
  /\ PrintResponseBody.print_body (YStr body) initial
     = (for_each pre PrintResponseBody.stream_line;;
        print (PyStr.strip e);;
        for_each post PrintResponseBody.stream_line) initial.
Proof.
  intros body pre e post.
  assert (is_stream_prb body = true) as H2 by reflexivity.
  assert (PyStr.split LF body = (pre ++ e :: post)%list) as H3 by reflexivity.
  assert (PyStr.startswith e "event:" = true) as H4 by reflexivity.
  refine (conj RefJsonFacts.loads_event (conj H2 (conj H3 (conj H4 _)))).
  exact (C10_event_line_printed body pre post e initial
           RefJsonFacts.loads_event H2 H3 H4).
Defined.

(** The example of C10: the [event:] line is printed, trimmed, between the
    two [data:] payloads. *)
Lemma event_line_text :
  PrintResponseBody.print_body
    (YStr ("data: 1" ++ nl ++ "event: ping " ++ nl ++ "data: 2" ++ nl)) initial
  = (Ok tt, mkState ("1" ++ nl ++ "event: ping" ++ nl ++ "2" ++ nl) []).
Proof. reflexivity. Qed.

End Concrete.

(** * Further properties of the scripts *)

(** ** Computations that do not look at the state *)

Lemma uniform_ret {A} (a : A) : uniform (ret a).
Proof. exists (Ok a), "". intros st. unfold ret. by rewrite emit_empty. Qed.

Lemma uniform_raise {A} (e : exn) : uniform (raise e : M A).
Proof. exists (Raise e), "". intros st. unfold raise. by rewrite emit_empty. Qed.

Lemma uniform_print s : uniform (print s).
Proof. exists (Ok tt), (s ++ nl). intros st. apply print_emit. Qed.

Lemma uniform_bind {A B} (m : M A) (k : A -> M B) :
  uniform m -> (forall a, uniform (k a)) -> uniform (m ≫= k).
Proof.
  intros ([a|e] & t & Hm) Hk.
  - destruct (Hk a) as (r & u & Hu). exists r, (t ++ u). intros st.
    rewrite (bind_ok _ _ _ _ _ (Hm st)), Hu. by rewrite emit_emit.
  - exists (Raise e), t. intros st. by rewrite (bind_raise _ _ _ _ _ (Hm st)).
Qed.

Lemma uniform_try {A} (m h : M A) (e : exn) :
  uniform m -> uniform h -> uniform (try_except m e h).
Proof.
  intros ([a|e'] & t & Hm) (r & u & Hh).
  - exists (Ok a), t. intros st. unfold try_except. by rewrite Hm.
  - destruct (exn_eqb e e') eqn:He.
    + exists r, (t ++ u). intros st. unfold try_except.
      by rewrite Hm, He, Hh, emit_emit.
    + exists (Raise e'), t. intros st. unfold try_except. by rewrite Hm, He.
Qed.

Lemma uniform_for_each {A} (l : list A) (body : A -> M unit) :
  (forall x, uniform (body x)) -> uniform (for_each l body).
Proof.
  intros Hb. induction l as [|x l IH]; [apply uniform_ret|].
  apply (uniform_bind (body x) (fun _ => for_each l body)); [apply Hb | done].
Qed.

Lemma uniform_getitem v key : uniform (getitem v key).
Proof.
  destruct v; try apply uniform_raise. simpl.
  destruct (_ !! _); [apply uniform_ret | apply uniform_raise].
Qed.

Lemma uniform_get v key : uniform (get v key).
Proof.
  destruct v; try apply uniform_raise. simpl.
  destruct (_ !! _); apply uniform_ret.
Qed.

Lemma uniform_iterate v : uniform (iterate v).
Proof. destruct v; try apply uniform_raise; apply uniform_ret. Qed.

Section Uniform.
Context `{JsonLib}.

Lemma uniform_loads s : uniform (loads s).
Proof. unfold loads. destruct (json_loads s); [apply uniform_ret | apply uniform_raise]. Qed.

Lemma uniform_try_print s :
  uniform (try_except (d ← loads s; print (json_dumps d)) ValueError (print s)).
Proof.
  apply uniform_try; [|apply uniform_print].
  apply (uniform_bind (loads s)); [apply uniform_loads | intros d; apply uniform_print].
Qed.

Lemma pb_uniform_print_line v : uniform (PrintBodies.print_line v).
Proof. destruct v; try apply uniform_raise. apply uniform_try_print. Qed.

Lemma pb_uniform_print_body v : uniform (PrintBodies.print_body v).
Proof.
  destruct v; try apply uniform_raise. unfold PrintBodies.print_body.
  destruct (_ || _); [|apply pb_uniform_print_line].
  apply uniform_for_each. intros x. exists (Ok tt), (stream_text_pb x).
  intros st. apply pb_stream_line.
Qed.

Lemma prb_uniform_print_body v : uniform (PrintResponseBody.print_body v).
Proof.
  destruct v; try apply uniform_raise. unfold PrintResponseBody.print_body.
  destruct (PyStr.startswith _ _); [|apply uniform_print].
  apply uniform_for_each. intros x. exists (Ok tt), (stream_text_prb x).
  intros st. apply prb_stream_line.
Qed.

Lemma pb_uniform_step i : uniform (PrintBodies.interaction_step i).
Proof.
  unfold PrintBodies.interaction_step.
  apply (uniform_bind (getitem i "request")); [apply uniform_getitem|]. intros r.
  apply (uniform_bind (get r "body")); [apply uniform_get|]. intros req.
  apply (uniform_bind (if truthy req then _ else _)).
  { destruct (truthy req); [|apply uniform_ret].
    apply (uniform_bind (print _)); [apply uniform_print|].
    intros _. apply pb_uniform_print_line. }
  intros _. apply (uniform_bind (print _)); [apply uniform_print|]. intros _.
  apply (uniform_bind (getitem i "response")); [apply uniform_getitem|]. intros resp.
  apply (uniform_bind (getitem resp "body")); [apply uniform_getitem|]. intros body.
  apply pb_uniform_print_body.
Qed.

Lemma prb_uniform_step i : uniform (PrintResponseBody.interaction_step i).
Proof.
  unfold PrintResponseBody.interaction_step.
  apply (uniform_bind (getitem i "response")); [apply uniform_getitem|]. intros resp.
  apply (uniform_bind (getitem resp "body")); [apply uniform_getitem|]. intros body.
  apply prb_uniform_print_body.
Qed.

(** What [main] does once the document is loaded. *)
Lemma pb_uniform_loop doc :
  uniform (seq ← getitem doc "interactions"; items ← iterate seq;
           for_each items PrintBodies.interaction_step;; ret 0%Z).
Proof.
  apply (uniform_bind (getitem doc "interactions")); [apply uniform_getitem|].
  intros seq. apply (uniform_bind (iterate seq)); [apply uniform_iterate|].
  intros items. apply (uniform_bind (for_each items _)); [|intros; apply uniform_ret].
  apply uniform_for_each, pb_uniform_step.
Qed.

Lemma prb_uniform_loop doc :
  uniform (seq ← getitem doc "interactions"; items ← iterate seq;
           for_each items PrintResponseBody.interaction_step;; ret 0%Z).
Proof.
  apply (uniform_bind (getitem doc "interactions")); [apply uniform_getitem|].
  intros seq. apply (uniform_bind (iterate seq)); [apply uniform_iterate|].
  intros items. apply (uniform_bind (for_each items _)); [|intros; apply uniform_ret].
  apply uniform_for_each, prb_uniform_step.
Qed.
End Uniform.

(** ** Runs of [main] on arbitrary input *)

Section Runs.
Context `{JsonLib} `{Host}.

Lemma load_yaml_doc path doc st :
  holds_document path doc ->
  load_yaml path st = (Ok doc, mkState (stdout st) (opened st ++ [path])).
Proof. intros (text & Hr & Hp). unfold load_yaml. by rewrite Hr, Hp. Qed.

(** Once the document is loaded, [main] is the loop on it. *)
Lemma pb_main_doc prog path rest doc st :
  holds_document path doc ->
  PrintBodies.main (prog :: path :: rest) st
  = (seq ← getitem doc "interactions"; items ← iterate seq;
     for_each items PrintBodies.interaction_step;; ret 0%Z)
      (mkState (stdout st) (opened st ++ [path])).
Proof.
  intros Hd. unfold PrintBodies.main. simpl.
  by rewrite (bind_ok _ _ _ _ _ (load_yaml_doc path doc st Hd)).
Qed.

Lemma prb_main_doc prog path rest doc st :
  holds_document path doc ->
  PrintResponseBody.main (prog :: path :: rest) st
  = (seq ← getitem doc "interactions"; items ← iterate seq;
     for_each items PrintResponseBody.interaction_step;; ret 0%Z)
      (mkState (stdout st) (opened st ++ [path])).
Proof.
  intros Hd. unfold PrintResponseBody.main. simpl.
  by rewrite (bind_ok _ _ _ _ _ (load_yaml_doc path doc st Hd)).
Qed.

(** A file that cannot be read or parsed ends [main] at once. *)
Lemma load_yaml_cases path st :
  (exists doc, holds_document path doc)
  \/ (exists e, (e = OSError \/ e = YAMLError)
                /\ load_yaml path st
                   = (Raise e, mkState (stdout st) (opened st ++ [path]))).
Proof.
  unfold load_yaml, holds_document.
  destruct (read_file path) as [text|] eqn:Hr; [|right; by exists OSError; split; [left|]].
  destruct (yaml_parse text) as [doc|] eqn:Hp.
  - left. by exists doc, text.
  - right. exists YAMLError. by split; [right|].
Qed.

Lemma bind_ok_inv {A B} (m : M A) (k : A -> M B) st b st' :
  (m ≫= k) st = (Ok b, st') ->
  exists a st1, m st = (Ok a, st1) /\ k a st1 = (Ok b, st').
Proof.
  unfold mbind, M_bind, bind. destruct (m st) as [[a|e] st1]; [|done].
  intros Hk. by exists a, st1.
Qed.

(** The loop returns no other status than 0. *)
Lemma loop_status {A} (m : M A) st z st' :
  (m;; ret 0%Z) st = (Ok z, st') -> z = 0%Z.
Proof. intros (a & st1 & _ & Hr)%bind_ok_inv. by inversion Hr. Qed.
End Runs.

Section Invariants.
Context `{JsonLib} `{Host}.

Lemma loop_run (step : yaml -> M unit) doc st r st' :
  (forall i, uniform (step i)) ->
  (seq ← getitem doc "interactions"; items ← iterate seq;
   for_each items step;; ret 0%Z) st = (r, st') ->
  (exists text, st' = emit st text) /\ r <> Ok 1%Z.
Proof.
  intros Hu Hrun. split.
  - assert (uniform (seq ← getitem doc "interactions"; items ← iterate seq;
                     for_each items step;; ret 0%Z)) as (r0 & text & Hl).
    { apply (uniform_bind (getitem doc "interactions")); [apply uniform_getitem|].
      intros seq. apply (uniform_bind (iterate seq)); [apply uniform_iterate|].
      intros items. apply (uniform_bind (for_each items _)); [|intros; apply uniform_ret].
      by apply uniform_for_each. }
    rewrite Hl in Hrun. exists text. by inversion Hrun.
  - intros ->.
    apply bind_ok_inv in Hrun as (seq & s1 & _ & Hrun).
    apply bind_ok_inv in Hrun as (items & s2 & _ & Hrun).
    by apply loop_status in Hrun.
Qed.

Lemma main_shape (argv : list string) :
  (length argv < 2 /\ (length argv <? 2)%nat = true)
  \/ (exists prog path rest, argv = prog :: path :: rest).
Proof.
  destruct argv as [|prog [|path rest]]; [left | left | right]; simpl;
    try (split; [lia | done]).
  by exists prog, path, rest.
Qed.

(** X7. Whatever the command line, the file system and the document, a run
    of either script only adds text to standard output, and it opens no file
    at all when it returns 1 and exactly the file named by the first
    argument otherwise. *)
Theorem X7_append_only_one_file (argv : list string) (st : state)
    (r : result Z) (st' : state) :
  PrintBodies.main argv st = (r, st')
  \/ PrintResponseBody.main argv st = (r, st') ->
  (exists text, stdout st' = stdout st ++ text)
  /\ ((length argv < 2 /\ r = Ok 1%Z /\ opened st' = opened st)
      \/ (exists path, argv !! 1%nat = Some path /\ r <> Ok 1%Z
                       /\ opened st' = (opened st ++ [path])%list)).
Proof.
  intros Hrun.
  destruct (main_shape argv) as [[Hlt Hb] | (prog & path & rest & ->)].
  - unfold PrintBodies.main, PrintResponseBody.main in Hrun. rewrite Hb in Hrun.
    destruct Hrun as [Hrun | Hrun]; inversion Hrun; subst; simpl;
      (split; [by eexists | left; done]).
  - assert ((exists text, stdout st' = stdout st ++ text)
            /\ r <> Ok 1%Z /\ opened st' = (opened st ++ [path])%list) as (Ho & Hr & Hf).
    { destruct (load_yaml_cases path st) as [[doc Hd] | (e & He & Hl)].
      - rewrite (pb_main_doc prog path rest doc st Hd),
          (prb_main_doc prog path rest doc st Hd) in Hrun.
        destruct Hrun as [Hrun | Hrun];
          [apply (loop_run _ _ _ _ _ pb_uniform_step) in Hrun
          |apply (loop_run _ _ _ _ _ prb_uniform_step) in Hrun];
          destruct Hrun as [[text ->] Hr]; simpl; (split; [by eexists | done]).
      - unfold PrintBodies.main, PrintResponseBody.main in Hrun. simpl in Hrun.
        rewrite !(bind_raise _ _ _ _ _ Hl) in Hrun.
        destruct Hrun as [Hrun | Hrun]; inversion Hrun; subst; simpl;
          (split; [exists ""; by rewrite sapp_nil_r | done]). }
    split; [done|]. right. by exists path.
Qed.
End Invariants.

(** ** Malformed input *)

(** X1. When the file named on the command line cannot be opened, or its
    text is not a YAML document, both scripts end with the exception of
    [open] or of the parser: nothing is printed and no status is returned. *)
Theorem X1_unreadable_file `{J : JsonLib} `{H : Host}
    (prog path : string) (rest : list string) (st : state) :
  read_file path = None
  \/ (exists text, read_file path = Some text /\ yaml_parse text = None) ->
  exists e, (e = OSError \/ e = YAMLError)
    /\ (read_file path = None <-> e = OSError)
    /\ PrintBodies.main (prog :: path :: rest) st
       = (Raise e, mkState (stdout st) (opened st ++ [path]))
    /\ PrintResponseBody.main (prog :: path :: rest) st
       = (Raise e, mkState (stdout st) (opened st ++ [path])).
Proof.
  intros Hbad.
  assert (exists e, (e = OSError \/ e = YAMLError)
                    /\ (read_file path = None <-> e = OSError)
                    /\ load_yaml path st
                       = (Raise e, mkState (stdout st) (opened st ++ [path])))
    as (e & He & Hiff & Hl).
  { unfold load_yaml. destruct Hbad as [Hr | (text & Hr & Hp)].
    - exists OSError. rewrite Hr. by split_and!; [left|..].
    - exists YAMLError. rewrite Hr, Hp. split_and!; [by right | | done].
      split; done. }
  exists e. split_and!; [done | done | |];
    unfold PrintBodies.main, PrintResponseBody.main; simpl;
    by rewrite (bind_raise _ _ _ _ _ Hl).
Qed.

(** X2. When the document is not a mapping, both scripts end with
    [TypeError]; when it is a mapping without an [interactions] key, with
    [KeyError]. In both cases nothing is printed. *)
Theorem X2_document_shape `{J : JsonLib} `{H : Host}
    (prog path : string) (rest : list string) (doc : yaml) (st : state) :
  holds_document path doc ->
  match doc with YDict top => top !! "interactions" = None | _ => True end ->
  let e := match doc with YDict _ => KeyError | _ => TypeError end in
  PrintBodies.main (prog :: path :: rest) st
  = (Raise e, mkState (stdout st) (opened st ++ [path]))
  /\ PrintResponseBody.main (prog :: path :: rest) st
     = (Raise e, mkState (stdout st) (opened st ++ [path])).
Proof.
  intros Hd Hshape e.
  rewrite (pb_main_doc prog path rest doc st Hd),
    (prb_main_doc prog path rest doc st Hd).
  subst e. destruct doc; try done.
  split; unfold mbind, M_bind, bind; simpl; by rewrite Hshape.
Qed.

(** X3. The [interactions] entry is only iterated. [None], a bool or an int
    there ends both scripts with [TypeError]; an empty string or an empty
    mapping is taken for no interaction at all (no output, status 0); a
    string or a mapping that is not empty ends both scripts with [TypeError]
    at its first character or key. Nothing is printed in any of these
    cases. *)
Theorem X3_interactions_not_a_list `{J : JsonLib} `{H : Host}
    (prog path : string) (rest : list string)
    (top : gmap string yaml) (seq : yaml) :
  holds_document path (YDict top) ->
  top !! "interactions" = Some seq ->
  (forall l, seq <> YList l) ->
  let r := match seq with
           | YStr EmptyString => Ok 0%Z
           | YDict m => if decide (m = ∅) then Ok 0%Z else Raise TypeError
           | _ => Raise TypeError
           end in
  PrintBodies.main (prog :: path :: rest) initial = (r, mkState "" [path])
  /\ PrintResponseBody.main (prog :: path :: rest) initial = (r, mkState "" [path]).
Proof.
  intros Hd Hseq Hnl r.
  rewrite (pb_main_doc prog path rest _ initial Hd),
    (prb_main_doc prog path rest _ initial Hd).
  change (mkState (stdout initial) (opened initial ++ [path])) with (mkState "" [path]).
  assert (forall st, getitem (YDict top) "interactions" st = (Ok seq, st)) as Hg.
  { intros st. simpl. by rewrite Hseq. }
  rewrite !(bind_ok _ _ _ _ _ (Hg _)).
  subst r. destruct seq as [| | |s|l|m]; try done.
  - destruct s as [|c s]; [done|done].
  - by destruct (Hnl l).
  - destruct (decide (m = ∅)) as [->|Hne].
    + simpl. by rewrite map_to_list_empty.
    + destruct (map_to_list m) as [|[k v] kvs] eqn:Hm.
      { by apply map_to_list_empty_iff in Hm. }
      split; unfold mbind, M_bind, bind; simpl; by rewrite Hm.
Qed.

(** ** Malformed interactions *)

Section BadInteractions.
Context `{JsonLib}.

(** The turn of [print_bodies] once a request without a printable body has
    been passed over. *)
Lemma pb_step_skip m rq st :
  m !! "request" = Some (YDict rq) ->
  match rq !! "body" with Some v => truthy v = false | None => True end ->
  PrintBodies.interaction_step (YDict m) st
  = (resp ← getitem (YDict m) "response";
     body ← getitem resp "body";
     PrintBodies.print_body body) (emit st (response_label ++ nl)).
Proof.
  intros Hrq Hfalse. rewrite (pb_step m rq st Hrq). cbv zeta.
  assert (truthy match rq !! "body" with Some x => x | None => YNone end = false)
    as -> by (by destruct (rq !! "body")).
  reflexivity.
Qed.
End BadInteractions.

(** X4. An interaction without a [response] entry, or whose response has no
    [body] key, ends the run with [KeyError]. [print_response_body] has
    printed nothing for it; [print_bodies] has already printed the
    [Response:] label, which it writes before it reads the response. *)
Theorem X4_response_missing `{J : JsonLib}
    (m rq : gmap string yaml) (st : state) :
  m !! "response" = None
  \/ (exists r, m !! "response" = Some (YDict r) /\ r !! "body" = None) ->
  m !! "request" = Some (YDict rq) ->
  match rq !! "body" with Some v => truthy v = false | None => True end ->
  PrintResponseBody.interaction_step (YDict m) st = (Raise KeyError, st)
  /\ PrintBodies.interaction_step (YDict m) st
     = (Raise KeyError, emit st (response_label ++ nl)).
Proof.
  intros Hresp Hrq Hfalse. rewrite (pb_step_skip m rq st Hrq Hfalse).
  unfold PrintResponseBody.interaction_step, mbind, M_bind, bind. simpl.
  destruct Hresp as [-> | (r & -> & Hb)]; [done|]. simpl. by rewrite Hb.
Qed.


(** X6. A request body that is true as a condition and is not a string (a
    mapping, a non-empty list, a number other than 0, [True]) makes
    [print_bodies] print the [Request:] label and end with the [TypeError]
    of [json.loads], which [print_line] does not catch; the response is not
    reached. *)
Theorem X6_request_body_not_str `{J : JsonLib}
    (m rq : gmap string yaml) (v : yaml) (st : state) :
  m !! "request" = Some (YDict rq) ->
  rq !! "body" = Some v ->
  truthy v = true ->
  (forall s, v <> YStr s) ->
  PrintBodies.interaction_step (YDict m) st
  = (Raise TypeError, emit st (request_label ++ nl)).
Proof.
  intros Hrq Hv Ht Hns. rewrite (pb_step m rq st Hrq), Hv. cbv zeta. rewrite Ht.
  unfold mbind, M_bind, bind.
  change (print request_label st) with (Ok tt, emit st (request_label ++ nl)).
  cbv beta iota.
  destruct v as [| | |s| |]; try done. by destruct (Hns s).
Qed.

(** ** Files compose *)

Lemma for_each_app_raise {A} (l1 l2 : list A) (body : A -> M unit) st e st' :
  for_each l1 body st = (Raise e, st') ->
  for_each (l1 ++ l2) body st = (Raise e, st').
Proof.
  revert st. induction l1 as [|x l1 IH]; simpl; intros st E; [done|].
  unfold mbind, M_bind, bind in *.
  destruct (body x st) as [[[]|e0] s1]; [by apply IH | done].
Qed.

Lemma loop_compose (step : yaml -> M unit) (l1 l2 : list yaml)
    (f1 f2 f : list string) (r1 r2 : result Z) (o1 o2 : string) :
  (forall i, uniform (step i)) ->
  (for_each l1 step;; ret 0%Z) (mkState "" f1) = (r1, mkState o1 f1) ->
  (for_each l2 step;; ret 0%Z) (mkState "" f2) = (r2, mkState o2 f2) ->
  (for_each (l1 ++ l2) step;; ret 0%Z) (mkState "" f)
  = match r1 with
    | Ok _ => (r2, mkState (o1 ++ o2) f)
    | Raise e => (Raise e, mkState o1 f)
    end.
Proof.
  intros Hu H1 H2.
  destruct (uniform_for_each l1 step Hu) as (a1 & t1 & U1).
  destruct (uniform_for_each l2 step Hu) as (a2 & t2 & U2).
  unfold mbind, M_bind, bind in *.
  rewrite U1 in H1. rewrite U2 in H2.
  destruct a1 as [[]|e1].
  - inversion H1; subst.
    rewrite (for_each_app l1 l2 step _ _ (U1 _)), U2.
    destruct a2 as [[]|e2]; inversion H2; subst; unfold emit; simpl; done.
  - inversion H1; subst.
    rewrite (for_each_app_raise l1 l2 step _ _ _ (U1 _)). done.
Qed.

(** X8. The interactions of a file are printed one after the other, each
    as it would be anywhere else: when a file holds the interactions of a
    first file followed by those of a second one, a script prints what it
    prints for the first file followed by what it prints for the second
    one, and ends as it does on the second one; if it fails on the first
    file it fails in the same way, with the same output, on the joined
    one. *)
Theorem X8_files_compose `{J : JsonLib} `{H : Host}
    (prog p1 p2 p : string) (l1 l2 : list yaml)
    (r1 r2 : result Z) (o1 o2 : string) :
  holds_interactions p1 l1 ->
  holds_interactions p2 l2 ->
  holds_interactions p (l1 ++ l2) ->
  (PrintBodies.main [prog; p1] initial = (r1, mkState o1 [p1]) ->
   PrintBodies.main [prog; p2] initial = (r2, mkState o2 [p2]) ->
   PrintBodies.main [prog; p] initial
   = match r1 with
     | Ok _ => (r2, mkState (o1 ++ o2) [p])
     | Raise e => (Raise e, mkState o1 [p])
     end)
  /\ (PrintResponseBody.main [prog; p1] initial = (r1, mkState o1 [p1]) ->
      PrintResponseBody.main [prog; p2] initial = (r2, mkState o2 [p2]) ->
      PrintResponseBody.main [prog; p] initial
      = match r1 with
        | Ok _ => (r2, mkState (o1 ++ o2) [p])
        | Raise e => (Raise e, mkState o1 [p])
        end).
Proof.
  intros Hf1 Hf2 Hf. split.
  - rewrite (pb_main_run prog p1 [] l1 initial Hf1),
      (pb_main_run prog p2 [] l2 initial Hf2),
      (pb_main_run prog p [] (l1 ++ l2) initial Hf).
    apply loop_compose, pb_uniform_step.
  - rewrite (prb_main_run prog p1 [] l1 initial Hf1),
      (prb_main_run prog p2 [] l2 initial Hf2),
      (prb_main_run prog p [] (l1 ++ l2) initial Hf).
    apply loop_compose, prb_uniform_step.
Qed.

(** ** Lines of an event stream *)

Lemma split_nonempty sep s : PyStr.split sep s <> [].
Proof.
  destruct s as [|c s]; simpl; [done|].
  destruct (Ascii.eqb c sep); [done|]. by destruct (PyStr.split sep s).
Qed.

(** Splitting at the separator between two pieces splits each piece. *)
Lemma split_app sep (a b : string) :
  PyStr.split sep (a ++ String sep b)
  = (PyStr.split sep a ++ PyStr.split sep b)%list.
Proof.
  induction a as [|c a IH]; simpl.
  - by rewrite Ascii.eqb_refl.
  - destruct (Ascii.eqb c sep); [by rewrite IH|].
    rewrite IH. pose proof (split_nonempty sep a).
    by destruct (PyStr.split sep a).
Qed.

Lemma startswith_app_keep (s x p : string) :
  PyStr.startswith s p = true -> PyStr.startswith (s ++ x) p = true.
Proof.
  intros [r ->]%startswith_inv. rewrite sapp_assoc. apply startswith_app.
Qed.

Lemma rstrip_all_space ws : all_space ws = true -> PyStr.rstrip ws = "".
Proof.
  induction ws as [|c ws IH]; [done|]. simpl.
  intros [Hc Hw]%andb_true_iff. by rewrite (IH Hw), Hc.
Qed.

Lemma rstrip_app_space s ws :
  all_space ws = true -> PyStr.rstrip (s ++ ws) = PyStr.rstrip s.
Proof.
  intros Hw. induction s as [|c s IH]; [by apply rstrip_all_space|].
  cbn [String.append PyStr.rstrip]. by rewrite IH.
Qed.

Lemma lstrip_all_space ws : all_space ws = true -> PyStr.lstrip ws = "".
Proof.
  induction ws as [|c ws IH]; [done|]. simpl.
  intros [Hc Hw]%andb_true_iff. by rewrite Hc, (IH Hw).
Qed.

Lemma lstrip_app_space s ws :
  all_space ws = true ->
  exists ws', all_space ws' = true /\ PyStr.lstrip (s ++ ws) = PyStr.lstrip s ++ ws'.
Proof.
  intros Hw. induction s as [|c s (ws' & Hw' & IH)].
  - exists "". split; [done|]. cbn [String.append PyStr.lstrip].
    by rewrite (lstrip_all_space ws Hw).
  - cbn [String.append PyStr.lstrip]. destruct (PyStr.isspace c).
    + by exists ws'.
    + by exists ws.
Qed.

(** White space after a string is lost in [strip]. *)
Lemma strip_app_space s ws :
  all_space ws = true -> PyStr.strip (s ++ ws) = PyStr.strip s.
Proof.
  intros Hw. unfold PyStr.strip.
  destruct (lstrip_app_space s ws Hw) as (ws' & Hw' & ->).
  by apply rstrip_app_space.
Qed.

(** White space after a string does not complete a prefix that holds no
    white space. *)
Lemma startswith_app_space (s ws p : string) :
  no_space p = true -> all_space ws = true ->
  PyStr.startswith (s ++ ws) p = PyStr.startswith s p.
Proof.
  unfold PyStr.startswith. intros Hp Hw. revert s.
  induction p as [|a p IH]; intros s.
  - by destruct s, ws.
  - simpl in Hp. apply andb_true_iff in Hp as [Ha Hp].
    destruct s as [|c s].
    + destruct ws as [|w ws]; [done|]. simpl in Hw |- *.
      apply andb_true_iff in Hw as [Hc _].
      destruct (ascii_dec a w) as [->|]; [|done].
      by rewrite Hc in Ha.
    + simpl. destruct (ascii_dec a c); [by apply IH | done].
Qed.

Lemma payload_app_space line ws :
  all_space ws = true -> payload (line ++ ws) = payload line.
Proof.
  intros Hw. unfold payload.
  rewrite (startswith_app_space line ws "data:") by done.
  destruct (PyStr.startswith line "data:") eqn:Hd; [|by apply strip_app_space].
  apply startswith_inv in Hd as [r ->]. rewrite sapp_assoc.
  change (PyStr.slice_from 5 ("data:" ++ r ++ ws)) with (r ++ ws).
  change (PyStr.slice_from 5 ("data:" ++ r)) with r.
  by apply strip_app_space.
Qed.

(** X9. The lines of an event stream are decoded one by one: a stream body
    followed by a line feed and more text prints what the body prints, then
    what the lines of that text print; in particular a line feed at the end
    of the body changes nothing. This holds in both scripts. *)
Theorem X9_stream_lines_independent `{J : JsonLib} (b1 b2 : string) (st : state) :
  (is_stream_pb b1 = true ->
   PrintBodies.print_body (YStr (b1 ++ nl ++ b2)) st
   = (PrintBodies.print_body (YStr b1);;
      for_each (PyStr.split LF b2) PrintBodies.stream_line) st
   /\ PrintBodies.print_body (YStr (b1 ++ nl)) st
      = PrintBodies.print_body (YStr b1) st)
  /\ (is_stream_prb b1 = true ->
      PrintResponseBody.print_body (YStr (b1 ++ nl ++ b2)) st
      = (PrintResponseBody.print_body (YStr b1);;
         for_each (PyStr.split LF b2) PrintResponseBody.stream_line) st
      /\ PrintResponseBody.print_body (YStr (b1 ++ nl)) st
         = PrintResponseBody.print_body (YStr b1) st).
Proof.
  split.
  - intros Hs.
    assert (forall x, is_stream_pb (b1 ++ x) = true) as Hsx.
    { intros x. unfold is_stream_pb in *.
      apply orb_true_iff in Hs as [Hs | Hs];
        rewrite (startswith_app_keep _ x _ Hs); [done | apply orb_true_r]. }
    assert (forall b, PrintBodies.print_body (YStr (b1 ++ String LF b)) st
                      = (PrintBodies.print_body (YStr b1);;
                         for_each (PyStr.split LF b) PrintBodies.stream_line) st) as Hgen.
    { intros b. unfold PrintBodies.print_body.
      pose proof (Hsx (String LF b)) as H1. unfold is_stream_pb in Hs, H1.
      rewrite Hs, H1, split_app.
      rewrite (bind_ok _ _ _ _ _
                 (for_each_emit stream_text_pb _ (PyStr.split LF b1) st pb_stream_line)).
      apply for_each_app, for_each_emit, pb_stream_line. }
    split; [apply Hgen|].
    change (b1 ++ nl) with (b1 ++ String LF ""). rewrite Hgen.
    destruct (pb_print_body_ok b1 st) as [t Ht].
    rewrite (bind_ok _ _ _ _ _ Ht), Ht. simpl.
    rewrite (bind_ok _ _ _ _ _ (pb_stream_line "" _)). by rewrite emit_empty.
  - intros Hs.
    assert (forall x, is_stream_prb (b1 ++ x) = true) as Hsx.
    { intros x. by apply startswith_app_keep. }
    assert (forall b, PrintResponseBody.print_body (YStr (b1 ++ String LF b)) st
                      = (PrintResponseBody.print_body (YStr b1);;
                         for_each (PyStr.split LF b) PrintResponseBody.stream_line) st)
      as Hgen.
    { intros b. unfold PrintResponseBody.print_body.
      pose proof (Hsx (String LF b)) as H1. unfold is_stream_prb in Hs, H1.
      rewrite Hs, H1, split_app.
      rewrite (bind_ok _ _ _ _ _
                 (for_each_emit stream_text_prb _ (PyStr.split LF b1) st prb_stream_line)).
      apply for_each_app, for_each_emit, prb_stream_line. }
    split; [apply Hgen|].
    change (b1 ++ nl) with (b1 ++ String LF ""). rewrite Hgen.
    destruct (prb_print_body_ok b1 st) as [t Ht].
    rewrite (bind_ok _ _ _ _ _ Ht), Ht. simpl.
    rewrite (bind_ok _ _ _ _ _ (prb_stream_line "" _)). by rewrite emit_empty.
Qed.

(** X10. White space at the end of a line of an event stream, such as the
    carriage return of a CRLF line ending, never shows: the line prints what
    it prints without it, in both scripts. *)
Theorem X10_trailing_space_ignored `{J : JsonLib} (line ws : string) (st : state) :
  all_space ws = true ->
  PrintBodies.stream_line (line ++ ws) st = PrintBodies.stream_line line st
  /\ PrintResponseBody.stream_line (line ++ ws) st
     = PrintResponseBody.stream_line line st.
Proof.
  intros Hw. rewrite !pb_stream_line, !prb_stream_line.
  unfold stream_text_pb, stream_text_prb.
  rewrite (startswith_app_space line ws "event:") by done.
  by rewrite (payload_app_space line ws Hw).
Qed.

(** ** The two scripts side by side *)

(** X11. Printing a line is idempotent: when the text [print_line] printed
    for a string (without the line feed of [print]) is given to [print_line]
    again, the same text is printed. For a string that is valid JSON this
    rests on the [json] module reading back what it wrote. *)
Theorem X11_print_line_idempotent `{J : JsonLib} (L : JsonLaws J)
    (s : string) (st : state) :
  let t := match json_loads s with Some d => json_dumps d | None => s end in
  PrintBodies.print_line (YStr s) st = (Ok tt, emit st (t ++ nl))
  /\ PrintBodies.print_line (YStr t) st = (Ok tt, emit st (t ++ nl)).
Proof.
  intros t. subst t. rewrite !pb_print_line. unfold line_text.
  destruct (json_loads s) as [d|] eqn:Hs.
  - by rewrite (loads_dumps s d Hs).
  - by rewrite Hs.
Qed.

(** X12. The two scripts print the same text for a response body in two
    cases: an event stream that starts with [data:] and has no line that
    begins with [event:], and a plain body (no stream prefix) that is not
    valid JSON. *)
Theorem X12_scripts_agree `{J : JsonLib} (b : string) (st : state) :
  (is_stream_prb b = true
   /\ Forall (fun l => PyStr.startswith l "event:" = false) (PyStr.split LF b))
  \/ (is_stream_pb b = false /\ json_loads b = None) ->
  PrintBodies.print_body (YStr b) st = PrintResponseBody.print_body (YStr b) st.
Proof.
  intros [[Hs Hl] | [Hs Hn]].
  - rewrite prb_print_stream by done.
    rewrite pb_print_stream by (unfold is_stream_pb, is_stream_prb in *; by rewrite Hs).
    do 3 f_equal. induction Hl as [|l ls Hl _ IH]; [done|].
    simpl. rewrite IH. f_equal. unfold stream_text_pb, stream_text_prb. by rewrite Hl.
  - unfold PrintBodies.print_body, PrintResponseBody.print_body.
    unfold is_stream_pb in Hs. rewrite Hs.
    apply orb_false_iff in Hs as [-> _].
    rewrite pb_print_line. unfold line_text. by rewrite Hn.
Qed.

(** X13. A response body that begins with [event:] is an event stream for
    [print_bodies] only: [print_response_body], which tests for [data:]
    alone, prints the whole body as it is, [data:] lines included. *)
Theorem X13_event_first_body `{J : JsonLib} (b : string) (st : state) :
  PyStr.startswith b "event:" = true ->
  PrintResponseBody.print_body (YStr b) st = (Ok tt, emit st (b ++ nl))
  /\ PrintBodies.print_body (YStr b) st
     = for_each (PyStr.split LF b) PrintBodies.stream_line st.
Proof.
  intros He. split.
  - unfold PrintResponseBody.print_body.
    apply startswith_inv in He as [r ->]. reflexivity.
  - unfold PrintBodies.print_body. rewrite He. by rewrite orb_true_r.
Qed.


(** X15. The scripts read nothing of an interaction but the two bodies: two
    interactions whose responses have the same [body] entry are printed
    alike by [print_response_body], whatever their requests and other
    entries are, and alike by [print_bodies] when their requests have the
    same [body] entry as well. *)
Theorem X15_only_bodies_read `{J : JsonLib}
    (m m' r r' : gmap string yaml) (st : state) :
  m !! "response" = Some (YDict r) ->
  m' !! "response" = Some (YDict r') ->
  r !! "body" = r' !! "body" ->
  PrintResponseBody.interaction_step (YDict m) st
  = PrintResponseBody.interaction_step (YDict m') st
  /\ (forall rq rq',
        m !! "request" = Some (YDict rq) ->
        m' !! "request" = Some (YDict rq') ->
        rq !! "body" = rq' !! "body" ->
        PrintBodies.interaction_step (YDict m) st
        = PrintBodies.interaction_step (YDict m') st).
Proof.
  intros Hr Hr' Hb. split.
  - unfold PrintResponseBody.interaction_step, mbind, M_bind, bind. simpl.
    rewrite Hr, Hr'. simpl. by rewrite Hb.
  - intros rq rq' Hq Hq' Hqb.
    rewrite (pb_step m rq st Hq), (pb_step m' rq' st Hq'), Hqb. cbv zeta.
    unfold mbind, M_bind, bind.
    destruct (if truthy _ then _ else _) as [[[]|e] s1]; [|done].
    simpl. rewrite Hr, Hr'. simpl. by rewrite Hb.
Qed.

(** * Witnesses of the further properties *)

Section FurtherConcrete.
#[local] Existing Instance ref_json.

Lemma X1_witness :
  let h := docs_host ∅ in
  (read_file (Host := h) "missing.yaml" = None
   \/ (exists text, read_file (Host := h) "missing.yaml" = Some text
                    /\ yaml_parse (Host := h) text = None))
  /\ exists e, (e = OSError \/ e = YAMLError)
       /\ (read_file (Host := h) "missing.yaml" = None <-> e = OSError)
       /\ PrintBodies.main (H0 := h) ["print_bodies.py"; "missing.yaml"] initial
          = (Raise e, mkState (stdout initial) (opened initial ++ ["missing.yaml"]))
       /\ PrintResponseBody.main (H0 := h) ["print_bodies.py"; "missing.yaml"] initial
          = (Raise e, mkState (stdout initial) (opened initial ++ ["missing.yaml"])).
Proof.
  intros h.
  assert (read_file (Host := h) "missing.yaml" = None
          \/ (exists text, read_file (Host := h) "missing.yaml" = Some text
                           /\ yaml_parse (Host := h) text = None)) as H1
    by (left; reflexivity).
  refine (conj H1 _).
  exact (X1_unreadable_file (H := h) "print_bodies.py" "missing.yaml" [] initial H1).
Defined.

Lemma X2_witness :
  let h := docs_host {[ "list.yaml" := YList [] ]} in
  holds_document (H := h) "list.yaml" (YList [])
  /\ PrintBodies.main (H0 := h) ["print_bodies.py"; "list.yaml"] initial
     = (Raise TypeError, mkState (stdout initial) (opened initial ++ ["list.yaml"]))
  /\ PrintResponseBody.main (H0 := h) ["print_bodies.py"; "list.yaml"] initial
     = (Raise TypeError, mkState (stdout initial) (opened initial ++ ["list.yaml"])).
Proof.
  intros h.
  assert (holds_document (H := h) "list.yaml" (YList [])) as H1 by (by eexists).
  refine (conj H1 _).
  exact (X2_document_shape (H := h) "print_bodies.py" "list.yaml" [] (YList [])
           initial H1 I).
Defined.

Lemma X3_witness :
  let top : gmap string yaml := {[ "interactions" := YStr "" ]} in
  let h := docs_host {[ "empty.yaml" := YDict top ]} in
  holds_document (H := h) "empty.yaml" (YDict top)
  /\ top !! "interactions" = Some (YStr "")
  /\ (forall l, YStr "" <> YList l)
  /\ PrintBodies.main (H0 := h) ["print_bodies.py"; "empty.yaml"] initial
     = (Ok 0%Z, mkState "" ["empty.yaml"])
  /\ PrintResponseBody.main (H0 := h) ["print_bodies.py"; "empty.yaml"] initial
     = (Ok 0%Z, mkState "" ["empty.yaml"]).
Proof.
  intros top h.
  assert (holds_document (H := h) "empty.yaml" (YDict top)) as H1 by (by eexists).
  assert (top !! "interactions" = Some (YStr "")) as H2 by reflexivity.
  assert (forall l, YStr "" <> YList l) as H3 by done.
  refine (conj H1 (conj H2 (conj H3 _))).
  exact (X3_interactions_not_a_list (H := h) "print_bodies.py" "empty.yaml" []
           top (YStr "") H1 H2 H3).
Defined.

Lemma X4_witness :
  let m : gmap string yaml := {[ "request" := YDict ∅ ]} in
  (m !! "response" = None
   \/ (exists r, m !! "response" = Some (YDict r) /\ r !! "body" = None))
  /\ m !! "request" = Some (YDict ∅)
  /\ PrintResponseBody.interaction_step (YDict m) initial = (Raise KeyError, initial)
  /\ PrintBodies.interaction_step (YDict m) initial
     = (Raise KeyError, emit initial (response_label ++ nl)).
Proof.
  intros m.
  assert (m !! "response" = None
          \/ (exists r, m !! "response" = Some (YDict r) /\ r !! "body" = None)) as H1
    by (left; reflexivity).
  assert (m !! "request" = Some (YDict ∅)) as H2 by reflexivity.
  refine (conj H1 (conj H2 _)).
  exact (X4_response_missing m ∅ initial H1 H2 I).
Defined.


Lemma X6_witness :
  let rq : gmap string yaml := {[ "body" := YInt 7 ]} in
  let m : gmap string yaml := {[ "request" := YDict rq ]} in
  m !! "request" = Some (YDict rq)
  /\ rq !! "body" = Some (YInt 7)
  /\ truthy (YInt 7) = true
  /\ (forall s, YInt 7 <> YStr s)
  /\ PrintBodies.interaction_step (YDict m) initial
     = (Raise TypeError, emit initial (request_label ++ nl)).
Proof.
  intros rq m.
  assert (m !! "request" = Some (YDict rq)) as H1 by reflexivity.
  assert (rq !! "body" = Some (YInt 7)) as H2 by reflexivity.
  assert (truthy (YInt 7) = true) as H3 by reflexivity.
  assert (forall s, YInt 7 <> YStr s) as H4 by done.
  refine (conj H1 (conj H2 (conj H3 (conj H4 _)))).
  exact (X6_request_body_not_str m rq (YInt 7) initial H1 H2 H3 H4).
Defined.

Lemma X7_witness :
  let h := docs_host ∅ in
  let st' := mkState ("Usage: print_bodies.py <filename>" ++ nl) [] in
  (PrintBodies.main (H0 := h) ["print_bodies.py"] initial = (Ok 1%Z, st')
   \/ PrintResponseBody.main (H0 := h) ["print_bodies.py"] initial = (Ok 1%Z, st'))
  /\ (exists text, stdout st' = stdout initial ++ text)
  /\ ((length ["print_bodies.py"] < 2 /\ Ok 1%Z = Ok 1%Z
       /\ opened st' = opened initial)
      \/ (exists path, ["print_bodies.py"] !! 1%nat = Some path
                       /\ Ok 1%Z <> Ok 1%Z
                       /\ opened st' = (opened initial ++ [path])%list)).
Proof.
  intros h st'.
  assert (PrintBodies.main (H0 := h) ["print_bodies.py"] initial = (Ok 1%Z, st')
          \/ PrintResponseBody.main (H0 := h) ["print_bodies.py"] initial
             = (Ok 1%Z, st')) as H1 by (left; reflexivity).
  refine (conj H1 _).
  exact (X7_append_only_one_file (H0 := h) ["print_bodies.py"] initial
           (Ok 1%Z) st' H1).
Defined.

Lemma X8_witness :
  let a := interaction_of ∅ {[ "body" := YStr "first" ]} in
  let b := interaction_of ∅ {[ "body" := YStr "second" ]} in
  let h := docs_host {[ "a.yaml" := fixture [a]; "b.yaml" := fixture [b];
                        "ab.yaml" := fixture [a; b] ]} in
  holds_interactions (H := h) "a.yaml" [a]
  /\ holds_interactions (H := h) "b.yaml" [b]
  /\ holds_interactions (H := h) "ab.yaml" ([a] ++ [b])
  /\ PrintResponseBody.main (H0 := h) ["p"; "a.yaml"] initial
     = (Ok 0%Z, mkState ("first" ++ nl) ["a.yaml"])
  /\ PrintResponseBody.main (H0 := h) ["p"; "b.yaml"] initial
     = (Ok 0%Z, mkState ("second" ++ nl) ["b.yaml"])
  /\ PrintResponseBody.main (H0 := h) ["p"; "ab.yaml"] initial
     = (Ok 0%Z, mkState (("first" ++ nl) ++ "second" ++ nl) ["ab.yaml"]).
Proof.
  intros a b h.
  assert (holds_interactions (H := h) "a.yaml" [a]) as H1 by (by eexists _, _).
  assert (holds_interactions (H := h) "b.yaml" [b]) as H2 by (by eexists _, _).
  assert (holds_interactions (H := h) "ab.yaml" ([a] ++ [b])) as H3
    by (by eexists _, _).
  assert (PrintResponseBody.main (H0 := h) ["p"; "a.yaml"] initial
          = (Ok 0%Z, mkState ("first" ++ nl) ["a.yaml"])) as H4 by reflexivity.
  assert (PrintResponseBody.main (H0 := h) ["p"; "b.yaml"] initial
          = (Ok 0%Z, mkState ("second" ++ nl) ["b.yaml"])) as H5 by reflexivity.
  refine (conj H1 (conj H2 (conj H3 (conj H4 (conj H5 _))))).
  exact (proj2 (X8_files_compose (H := h) "p" "a.yaml" "b.yaml" "ab.yaml" [a] [b]
                  (Ok 0%Z) (Ok 0%Z) ("first" ++ nl) ("second" ++ nl) H1 H2 H3)
           H4 H5).
Defined.

Lemma X9_witness :
  let b1 := "data: 1" in
  let b2 := "data: 2" in
  is_stream_pb b1 = true
  /\ PrintBodies.print_body (YStr (b1 ++ nl ++ b2)) initial
     = (PrintBodies.print_body (YStr b1);;
        for_each (PyStr.split LF b2) PrintBodies.stream_line) initial
  /\ PrintBodies.print_body (YStr (b1 ++ nl)) initial
     = PrintBodies.print_body (YStr b1) initial.
Proof.
  intros b1 b2.
  assert (is_stream_pb b1 = true) as H1 by reflexivity.
  refine (conj H1 _).
  exact (proj1 (X9_stream_lines_independent b1 b2 initial) H1).
Defined.

Lemma X10_witness :
  let line := "data: 1" in
  let cr := String (ascii_of_nat 13) "" in
  all_space cr = true
  /\ PrintBodies.stream_line (line ++ cr) initial
     = PrintBodies.stream_line line initial
  /\ PrintResponseBody.stream_line (line ++ cr) initial
     = PrintResponseBody.stream_line line initial.
Proof.
  intros line cr.
  assert (all_space cr = true) as H1 by reflexivity.
  refine (conj H1 _).
  exact (X10_trailing_space_ignored line cr initial H1).
Defined.

Lemma X11_witness :
  let s := "[1,2]" in
  let t := match json_loads s with Some d => json_dumps d | None => s end in
  PrintBodies.print_line (YStr s) initial = (Ok tt, emit initial (t ++ nl))
  /\ PrintBodies.print_line (YStr t) initial = (Ok tt, emit initial (t ++ nl)).
Proof.
  exact (X11_print_line_idempotent ref_json_laws "[1,2]" initial).
Defined.

Lemma X12_witness :
  let b := "data: 1" ++ nl ++ "data: 2" in
  ((is_stream_prb b = true
    /\ Forall (fun l => PyStr.startswith l "event:" = false) (PyStr.split LF b))
   \/ (is_stream_pb b = false /\ json_loads b = None))
  /\ PrintBodies.print_body (YStr b) initial
     = PrintResponseBody.print_body (YStr b) initial.
Proof.
  intros b.
  assert ((is_stream_prb b = true
           /\ Forall (fun l => PyStr.startswith l "event:" = false) (PyStr.split LF b))
          \/ (is_stream_pb b = false /\ json_loads b = None)) as H1.
  { left. split; [reflexivity|]. by repeat constructor. }
  refine (conj H1 _).
  exact (X12_scripts_agree b initial H1).
Defined.

Lemma X13_witness :
  let b := "event: x" ++ nl ++ "data: 1" in
  PyStr.startswith b "event:" = true
  /\ PrintResponseBody.print_body (YStr b) initial = (Ok tt, emit initial (b ++ nl))
  /\ PrintBodies.print_body (YStr b) initial
     = for_each (PyStr.split LF b) PrintBodies.stream_line initial.
Proof.
  intros b.
  assert (PyStr.startswith b "event:" = true) as H1 by reflexivity.
  refine (conj H1 _).
  exact (X13_event_first_body b initial H1).
Defined.


Lemma X15_witness :
  let r : gmap string yaml := {[ "body" := YStr "ok" ]} in
  let r' : gmap string yaml := <["status" := YInt 200]> r in
  let m : gmap string yaml := {[ "response" := YDict r ]} in
  let m' : gmap string yaml :=
    <["request" := YDict ∅]> (<["response" := YDict r']> ∅) in
  m !! "response" = Some (YDict r)
  /\ m' !! "response" = Some (YDict r')
  /\ r !! "body" = r' !! "body"
  /\ PrintResponseBody.interaction_step (YDict m) initial
     = PrintResponseBody.interaction_step (YDict m') initial.
Proof.
  intros r r' m m'.
  assert (m !! "response" = Some (YDict r)) as H1 by reflexivity.
  assert (m' !! "response" = Some (YDict r')) as H2 by reflexivity.
  assert (r !! "body" = r' !! "body") as H3 by reflexivity.
  refine (conj H1 (conj H2 (conj H3 _))).
  exact (proj1 (X15_only_bodies_read m m' r r' initial H1 H2 H3)).
Defined.

End FurtherConcrete.

(** ** The exit status *)

Section ExitStatus.
Context `{JsonLib} `{Host}.

Lemma pb_main_status argv st z st' :
  PrintBodies.main argv st = (Ok z, st') ->
  (z = 1%Z /\ length argv < 2) \/ (z = 0%Z /\ 2 <= length argv).
Proof.
  intros Hrun.
  destruct (main_shape argv) as [[Hlt Hb] | (prog & path & rest & ->)].
  - left. unfold PrintBodies.main in Hrun. rewrite Hb in Hrun.
    inversion Hrun. done.
  - right. split; [|simpl; lia].
    destruct (load_yaml_cases path st) as [[doc Hd] | (e & He & Hl)].
    + rewrite (pb_main_doc prog path rest doc st Hd) in Hrun.
      apply bind_ok_inv in Hrun as (seq & s1 & _ & Hrun).
      apply bind_ok_inv in Hrun as (items & s2 & _ & Hrun).
      by apply loop_status in Hrun.
    + unfold PrintBodies.main in Hrun. simpl in Hrun.
      by rewrite (bind_raise _ _ _ _ _ Hl) in Hrun.
Qed.

Lemma prb_main_status argv st z st' :
  PrintResponseBody.main argv st = (Ok z, st') ->
  (z = 1%Z /\ length argv < 2) \/ (z = 0%Z /\ 2 <= length argv).
Proof.
  intros Hrun.
  destruct (main_shape argv) as [[Hlt Hb] | (prog & path & rest & ->)].
  - left. unfold PrintResponseBody.main in Hrun. rewrite Hb in Hrun.
    inversion Hrun. done.
  - right. split; [|simpl; lia].
    destruct (load_yaml_cases path st) as [[doc Hd] | (e & He & Hl)].
    + rewrite (prb_main_doc prog path rest doc st Hd) in Hrun.
      apply bind_ok_inv in Hrun as (seq & s1 & _ & Hrun).
      apply bind_ok_inv in Hrun as (items & s2 & _ & Hrun).
      by apply loop_status in Hrun.
    + unfold PrintResponseBody.main in Hrun. simpl in Hrun.
      by rewrite (bind_raise _ _ _ _ _ Hl) in Hrun.
Qed.

(** X16. The exit status of either script is 0 or 1, whatever the input:
    0 when [main] went through every interaction with a file name given,
    and 1 both when the file name is missing and when an exception ends the
    run, so that the status alone does not tell a usage error from a
    malformed file. *)
Theorem X16_exit_status (argv : list string) (st : state) :
  let pb := exit_status (PrintBodies.main argv st).1 in
  let prb := exit_status (PrintResponseBody.main argv st).1 in
  (pb = 0%Z \/ pb = 1%Z)
  /\ (prb = 0%Z \/ prb = 1%Z)
  /\ (pb = 0%Z <-> 2 <= length argv
                   /\ exists st', PrintBodies.main argv st = (Ok 0%Z, st'))
  /\ (prb = 0%Z <-> 2 <= length argv
                    /\ exists st', PrintResponseBody.main argv st = (Ok 0%Z, st')).
Proof.
  intros pb prb. subst pb prb.
  destruct (PrintBodies.main argv st) as [[z|e] s1] eqn:E1;
    destruct (PrintResponseBody.main argv st) as [[z'|e'] s2] eqn:E2; simpl;
    try (apply pb_main_status in E1 as [[-> ?] | [-> ?]]);
    try (apply prb_main_status in E2 as [[-> ?] | [-> ?]]);
    split_and!; try (by left); try (by right);
    try (split; [intros ?; lia || done | intros [? [? ?]]; lia || done]);
    try (split; [intros _; split; [done | by eexists] | done]).
Qed.
End ExitStatus.
